(** * Sentiment analysis middleware of mcp-l-core

    A shallow embedding of [src/lib/middleware/sentiment/analyzer.js]
    (class [SentimentAnalyzer]: its constructor, [analyzeSentiment] and
    [analyze]) together with the properties of it that the specification
    states.

    Modelling conventions.
    - A JavaScript string is a Rocq [string]; a character stands for the
      UTF-16 code unit of the same value, so the model covers the strings
      over U+0000..U+00FF (Latin-1).
    - A JavaScript Number is a binary64 floating-point number, a [float]
      of Rocq: every operation rounds as IEEE 754 prescribes, and there are
      NaN, the infinities and the two zeros.
    - An object used as a dictionary is an association list in property
      order; objects that can be aliased live in a heap (a list of objects
      addressed by position).
    - A call either returns, throws, or leaves the fragment of JavaScript
      that is modelled here ([Unmodelled]); nothing is ever proved about the
      last case.
    - The regular expressions that the analyzer builds from its lexicon are
      modelled for the terms made of pattern characters and dots, and for
      the terms that the constructor rejects for an unmatched parenthesis.
      For every other term the built-in answers through a parameter
      ([engine]), and the general properties hold for each of its values. *)

From Stdlib Require Import Floats ZArith Lia String Ascii List NArith Bool.
From stdpp Require Import base list.
Import ListNotations.

Set Warnings "-inexact-float".

Open Scope string_scope.
Open Scope float_scope.

(** ** Outcomes of a call *)

Inductive js_error := SyntaxError | TypeError.

Inductive outcome (A : Type) :=
| Returns (a : A)
| Throws (e : js_error)
| Unmodelled.
Arguments Returns {A} a.
Arguments Throws {A} e.
Arguments Unmodelled {A}.

Definition bind {A B} (m : outcome A) (k : A -> outcome B) : outcome B :=
  match m with
  | Returns a => k a
  | Throws e => Throws e
  | Unmodelled => Unmodelled
  end.

(** ** Strings *)

Definition in_range (lo hi n : N) : bool := (lo <=? n)%N && (n <=? hi)%N.

(** [String.prototype.toLowerCase] on one code unit of Latin-1: the
    letters A-Z, and U+00C0..U+00DE without the multiplication sign. *)
Definition toLowerCase_char (c : ascii) : ascii :=
  let n := N_of_ascii c in
  if in_range 65 90 n || (in_range 192 222 n && negb (n =? 215)%N)
  then ascii_of_N (n + 32) else c.

Fixpoint toLowerCase (s : string) : string :=
  match s with
  | EmptyString => EmptyString
  | String c s' => String (toLowerCase_char c) (toLowerCase s')
  end.

(** [Canonicalize] of a case-insensitive (flag [i]), non-unicode regular
    expression: the upper-case form when it is again one code unit. Within
    Latin-1 the characters whose upper-case form lies outside (the micro
    sign, y with diaeresis) or is longer (sharp s) are alone in their class
    and stand for themselves. *)
Definition Canonicalize (c : ascii) : ascii :=
  let n := N_of_ascii c in
  if in_range 97 122 n || (in_range 224 254 n && negb (n =? 247)%N)
  then ascii_of_N (n - 32) else c.

(** The class [\w] behind the assertion [\b]. *)
Definition IsWordChar (c : ascii) : bool :=
  let n := N_of_ascii c in
  in_range 97 122 n || in_range 65 90 n || in_range 48 57 n || (n =? 95)%N.

(** The class [\s] within Latin-1: TAB, LF, VT, FF, CR, space, NBSP. *)
Definition IsWhiteSpace (c : ascii) : bool :=
  let n := N_of_ascii c in
  in_range 9 13 n || (n =? 32)%N || (n =? 160)%N.

(** [s.includes(p)] *)
Fixpoint includes (s p : string) : bool :=
  String.prefix p s ||
  match s with
  | EmptyString => false
  | String _ s' => includes s' p
  end.

(** [s.split(/\s+/).length]: one more than the number of maximal runs of
    white space; [inRun] tells that the previous character was white. *)
Fixpoint separators (inRun : bool) (s : string) : nat :=
  match s with
  | EmptyString => 0
  | String c s' =>
      if IsWhiteSpace c
      then (if inRun then 0 else 1) + separators true s'
      else separators false s'
  end.

Definition split_length (s : string) : nat := S (separators false s).

(** [(content.match(/!/g) || []).length] *)
Fixpoint count_char (x : ascii) (s : string) : nat :=
  match s with
  | EmptyString => 0
  | String c s' => (if Ascii.eqb c x then 1 else 0) + count_char x s'
  end.

(** ** The regular expression built from a lexicon term

    [new RegExp('\\b' + term + '\\b|' + term, 'gi')] takes the term as
    pattern source. Three classes of terms are told apart:
    - a term of pattern characters and dots is a pattern whose matches
      have the length of the term, a dot standing for any character but a
      line terminator, and the expression is the alternation of
      [\b term \b] and [term];
    - a term whose first syntax character other than a dot is a closing
      parenthesis is rejected by the constructor with a SyntaxError
      (unmatched parenthesis), whatever follows;
    - for any other term the built-in regular expressions decide, see
      [engine] below. *)

Definition SyntaxCharacter (c : ascii) : bool :=
  existsb (Ascii.eqb c) (list_ascii_of_string "^$\.*+?()[]{}|").

Inductive pattern_class := FixedLength | UnmatchedParen | OtherSyntax.

Fixpoint classify_term (t : string) : pattern_class :=
  match t with
  | EmptyString => FixedLength
  | String c t' =>
      if Ascii.eqb c ")" then UnmatchedParen
      else if Ascii.eqb c "." then classify_term t'
      else if SyntaxCharacter c then OtherSyntax
      else classify_term t'
  end.

(** The compiled expression keeps the term it was built from. *)
Record RegExp := { source_term : string }.

(** The line terminators within Latin-1: LF and CR. *)
Definition LineTerminator (c : ascii) : bool :=
  let n := N_of_ascii c in (n =? 10)%N || (n =? 13)%N.

(** The atoms of [t] match at the head of [s]: a dot matches any
    character but a line terminator, a pattern character the characters
    with the same [Canonicalize]. *)
Fixpoint match_pattern (t s : string) : bool :=
  match t, s with
  | EmptyString, _ => true
  | String _ _, EmptyString => false
  | String a t', String b s' =>
      (if Ascii.eqb a "." then negb (LineTerminator b)
       else Ascii.eqb (Canonicalize a) (Canonicalize b))
      && match_pattern t' s'
  end.

Definition word_of (c : option ascii) : bool :=
  match c with Some x => IsWordChar x | None => false end.

(** [\b] between the character [before] and the character [after]. *)
Definition word_boundary (before after : option ascii) : bool :=
  xorb (word_of before) (word_of after).

Definition first_char (s : string) : option ascii :=
  match s with EmptyString => None | String c _ => Some c end.

(** The character before and the rest after [n] characters of [s], where
    [prev] is the character before [s]. *)
Fixpoint advance (n : nat) (prev : option ascii) (s : string) : option ascii * string :=
  match n, s with
  | S n', String c s' => advance n' (Some c) s'
  | _, _ => (prev, s)
  end.

(** First alternative, [\b term \b], tried at the position whose preceding
    character is [prev] and whose rest is [s]. *)
Definition match_bounded (t : string) (prev : option ascii) (s : string) : bool :=
  word_boundary prev (first_char s) && match_pattern t s &&
  (let '(before, rest) := advance (String.length t) prev s in
   word_boundary before (first_char rest)).

(** One attempt of the whole pattern at a position: the length of the
    match of the first alternative that succeeds. *)
Definition match_here (re : RegExp) (prev : option ascii) (s : string) : option nat :=
  let t := source_term re in
  if match_bounded t prev s then Some (String.length t)
  else if match_pattern t s then Some (String.length t)
  else None.

(** [(s.match(re) || []).length] for a global expression: the matches are
    taken from left to right, each search resuming where the previous
    match ended (one further after an empty match). [skip] characters are
    still inside the previous match. *)
Fixpoint count_matches_from (re : RegExp) (prev : option ascii) (s : string) (skip : nat) : nat :=
  match skip with
  | S skip' =>
      match s with
      | EmptyString => 0
      | String c s' => count_matches_from re (Some c) s' skip'
      end
  | O =>
      match match_here re prev s with
      | Some len =>
          match s with
          | EmptyString => 1
          | String c s' => S (count_matches_from re (Some c) s' (Nat.pred len))
          end
      | None =>
          match s with
          | EmptyString => 0
          | String c s' => count_matches_from re (Some c) s' 0
          end
      end
  end.

Definition match_count (s : string) (re : RegExp) : nat :=
  count_matches_from re None s 0.

(** The built-in regular expressions on the terms of the third class:
    [exec term text] is the number of matches in [text] of the expression
    built from [term], or the error that building it throws. *)
Abbreviation engine := (string -> string -> outcome nat).

(** [(lowerContent.match(new RegExp('\\b' + term + '\\b|' + term, 'gi'))
    || []).length] *)
Definition count_matches (exec : engine) (term lowerContent : string) : outcome nat :=
  match classify_term term with
  | FixedLength => Returns (match_count lowerContent {| source_term := term |})
  | UnmatchedParen => Throws SyntaxError
  | OtherSyntax => exec term lowerContent
  end.

(** ** Numbers *)

(** The Number of a length or a count: the nearest binary64 number, which
    is the integer itself below 2^53. *)
Definition Number_of_nat (n : nat) : float :=
  SF2Prim (binary_normalize prec emax (Z.of_nat n) 0%Z false).

(** [Math.min(x, y)]: NaN when one of the two is, and -0 below +0. *)
Definition Math_min (x y : float) : float :=
  if is_nan x || is_nan y then nan
  else if x <? y then x
  else if y <? x then y
  else if is_zero x && get_sign x then x
  else y.

(** [ToBoolean] of a Number: zero and NaN are false. *)
Definition Number_truthy (x : float) : bool := negb (is_zero x || is_nan x).

(** ** Values and dictionaries *)

Abbreviation loc := nat.

Inductive value :=
| VUndefined
| VNull
| VBoolean (b : bool)
| VNumber (x : float)
| VString (s : string)
| VObject (l : loc).

(** [ToBoolean]: what [if (v)] and [!v] look at. *)
Definition truthy (v : value) : bool :=
  match v with
  | VUndefined | VNull => false
  | VBoolean b => b
  | VNumber x => Number_truthy x
  | VString s => negb (String.eqb s "")
  | VObject _ => true
  end.

(** An object with numeric properties, in the order in which
    [Object.entries] lists them: the array indices first, in ascending
    order, then the other names in the order of their creation. *)
Definition Dictionary := list (string * float).

Fixpoint get_entry (d : Dictionary) (k : string) : option float :=
  match d with
  | [] => None
  | (k', w) :: d' => if String.eqb k' k then Some w else get_entry d' k
  end.

Definition digit (c : ascii) : option N :=
  let n := N_of_ascii c in
  if (48 <=? n)%N && (n <=? 57)%N then Some (n - 48)%N else None.

Fixpoint numeral (s : string) (acc : N) : option N :=
  match s with
  | EmptyString => Some acc
  | String c s' =>
      match digit c with
      | Some d => numeral s' (10 * acc + d)%N
      | None => None
      end
  end.

(** An array index: the decimal numeral, without a leading zero, of an
    integer below 2^32 - 1. *)
Definition array_index (k : string) : option N :=
  match k with
  | EmptyString => None
  | String c k' =>
      if Ascii.eqb c "0" && negb (String.eqb k' "") then None
      else match numeral k 0 with
           | Some n => if (n <? 4294967295)%N then Some n else None
           | None => None
           end
  end.

(** A new property whose name is the array index [n] goes before the
    first property that is not an array index or is a greater one. *)
Fixpoint insert_index (d : Dictionary) (n : N) (k : string) (w : float) : Dictionary :=
  match d with
  | [] => [(k, w)]
  | (k', w') :: d' =>
      match array_index k' with
      | Some n' => if (n' <? n)%N then (k', w') :: insert_index d' n k w
                   else (k, w) :: d
      | None => (k, w) :: d
      end
  end.

Fixpoint replace_entry (d : Dictionary) (k : string) (w : float) : Dictionary :=
  match d with
  | [] => []
  | (k', w') :: d' =>
      if String.eqb k' k then (k', w) :: d' else (k', w') :: replace_entry d' k w
  end.

(** [d[k] = w]: an existing property keeps its place, a new one is
    created. *)
Definition set_entry (d : Dictionary) (k : string) (w : float) : Dictionary :=
  match get_entry d k with
  | Some _ => replace_entry d k w
  | None =>
      match array_index k with
      | Some n => insert_index d n k w
      | None => (d ++ [(k, w)])%list
      end
  end.

(** [Object.assign(target, source)] *)
Definition Object_assign (target source : Dictionary) : Dictionary :=
  fold_left (fun d e => set_entry d (fst e) (snd e)) source target.

(** The object literal of the constructor, property by property as
    written (the key [amazing] occurs twice). *)
Definition dictionary_literal : list (string * float) :=
  [ ("good", 0.7); ("great", 1.0); ("excellent", 1.3); ("amazing", 1.5);
    ("fantastic", 1.5); ("wonderful", 1.3); ("happy", 1.0); ("pleased", 0.8);
    ("satisfied", 0.7); ("love", 1.4); ("like", 0.8); ("enjoy", 0.9);
    ("awesome", 1.5); ("works great", 1.2); ("really happy", 1.4);
    ("bad", -0.7); ("terrible", -1.3); ("awful", -1.3); ("horrible", -1.5);
    ("disappointed", -1.0); ("very disappointed", -1.5); ("upset", -1.0);
    ("frustrated", -1.2); ("frustrating", -1.2); ("annoyed", -0.8);
    ("angry", -1.3); ("hate", -1.5); ("dislike", -0.7); ("poor", -0.7);
    ("worst", -1.5);
    ("already", -0.5); ("repeatedly", -0.6); ("multiple times", -0.9);
    ("still not", -0.8); ("keep getting", -0.7); ("not working", -0.8);
    ("told you", -1.0); ("keeps happening", -0.9); ("still doesn't", -1.2);
    ("wow", 1.5); ("amazing", 1.5); ("incredible", 1.6);
    ("unbelievable", 1.4); ("can't believe", 1.2); ("spectacular", 1.8);
    ("!", 0.3); ("!!", 0.6); ("!!!", 0.9) ].

Definition default_dictionary : Dictionary :=
  Object_assign [] dictionary_literal.

(** ** The analyzer *)

(** The argument of the constructor: each option may be absent. *)
Record Options := {
  opt_confidenceThreshold : option float;
  opt_customDictionary : option Dictionary
}.

Record Config := {
  confidenceThreshold : float;
  customDictionary : Dictionary
}.

Record SentimentAnalyzer := {
  config : Config;
  dictionary : Dictionary
}.

(** [x || d] on an optional number: absent, zero and NaN are falsy. *)
Definition number_or (x : option float) (d : float) : float :=
  match x with
  | Some t => if Number_truthy t then t else d
  | None => d
  end.

Definition constructor (o : Options) : SentimentAnalyzer :=
  let cfg := {| confidenceThreshold := number_or (opt_confidenceThreshold o) 0.65;
                customDictionary := match opt_customDictionary o with
                                    | Some d => d
                                    | None => []
                                    end |} in
  {| config := cfg;
     dictionary := Object_assign default_dictionary (customDictionary cfg) |}.

Inductive sentiment := neutral | positive | negative | frustration | excitement.

Record Analysis := { type : sentiment; confidence : float }.

(** The comparisons [a > b], [a < b] and [a >= b] of numbers: false when
    one of the two is NaN. *)
Definition gt (a b : float) : bool := b <? a.
Definition lt (a b : float) : bool := a <? b.
Definition ge (a b : float) : bool := b <=? a.

(** The five special-case checks that precede the scoring, in order. *)
Definition special_case (self : SentimentAnalyzer) (lowerContent : string) : option Analysis :=
  if includes lowerContent "really happy" && includes lowerContent "works great"
  then Some {| type := positive; confidence := 0.9 |}
  else if includes lowerContent "terrible" && includes lowerContent "disappointed"
          && includes lowerContent "frustrated"
  then Some {| type := negative; confidence := 0.9 |}
  else if includes lowerContent "told you multiple times"
          || includes lowerContent "still doesn't work"
  then Some {| type := frustration; confidence := 0.9 |}
  else if includes lowerContent "wow" && includes lowerContent "amazing"
          && includes lowerContent "can't believe"
  then Some {| type := excitement; confidence := 0.95 |}
  else if includes lowerContent "spectacular"
          && match get_entry (dictionary self) "spectacular" with
             | Some w => ge w 1.8
             | None => false
             end
  then Some {| type := excitement; confidence := 0.9 |}
  else None.

(** One turn of the loop over [Object.entries(this.dictionary)]; the state
    is the pair of [sentimentScore] and [matchCount]. *)
Definition scan_entry (exec : engine) (lowerContent : string) (acc : float * nat)
    (entry : string * float) : outcome (float * nat) :=
  let '(sentimentScore, matchCount) := acc in
  let '(term, score) := entry in
  bind (count_matches exec term lowerContent) (fun matches =>
    if (0 <? matches)%nat
    then Returns (sentimentScore + score * Number_of_nat matches,
                  (matchCount + matches)%nat)
    else Returns (sentimentScore, matchCount)).

Fixpoint scan_dictionary (exec : engine) (lowerContent : string) (entries : Dictionary)
    (acc : float * nat) : outcome (float * nat) :=
  match entries with
  | [] => Returns acc
  | e :: rest =>
      bind (scan_entry exec lowerContent acc e) (scan_dictionary exec lowerContent rest)
  end.

(** [wordCount > 0 ? sentimentScore / Math.sqrt(wordCount) : 0] *)
Definition normalize (sentimentScore : float) (wordCount : nat) : float :=
  if (0 <? wordCount)%nat then sentimentScore / sqrt (Number_of_nat wordCount) else 0.

(** The type and the confidence chosen from the normalized score, with the
    confidence capped at 0.98. *)
Definition threshold_mapping (content lowerContent : string) (normalizedScore : float)
  : Analysis :=
  let exclamationCount := count_char "!" content in
  let hasMultipleExclamations := (1 <? exclamationCount)%nat in
  let '(ty, conf) :=
    if gt normalizedScore 0.5 then
      if gt normalizedScore 1.5 || (gt normalizedScore 0.8 && hasMultipleExclamations)
      then (excitement, 0.7 + normalizedScore / 10)
      else (positive, 0.7 + normalizedScore / 5)
    else if lt normalizedScore (-0.5) then
      if includes lowerContent "already"
         || includes lowerContent "still"
         || includes lowerContent "multiple times"
         || includes lowerContent "told you"
         || includes lowerContent "doesn't work"
         || lt normalizedScore (-1.0)
      then (frustration, 0.7 + abs normalizedScore / 5)
      else (negative, 0.7 + abs normalizedScore / 5)
    else (neutral, 0.8) in
  {| type := ty; confidence := Math_min conf 0.98 |}.

Definition analyzeSentiment (exec : engine) (self : SentimentAnalyzer) (content : value)
  : outcome Analysis :=
  match content with
  | VString text =>
      if negb (truthy content) then Returns {| type := neutral; confidence := 1.0 |}
      else
        let lowerContent := toLowerCase text in
        let wordCount := split_length lowerContent in
        match special_case self lowerContent with
        | Some fixed => Returns fixed
        | None =>
            bind (scan_dictionary exec lowerContent (dictionary self) (0, 0%nat)) (fun acc =>
              let sentimentScore := fst acc in
              let normalizedScore := normalize sentimentScore wordCount in
              let result := threshold_mapping text lowerContent normalizedScore in
              if lt (confidence result) (confidenceThreshold (config self))
              then Returns {| type := neutral; confidence := 0.8 |}
              else Returns result)
        end
  | _ => Returns {| type := neutral; confidence := 1.0 |}
  end.

(** ** Objects and the heap

    [analyze] receives a reference to the message and copies it through
    JSON. Objects therefore live in a heap: a list of objects, a location
    being a position in it, and an allocation appending to it. An object
    lists its properties in enumeration order, each name once; an array
    lists its elements. The objects of the model are plain data: there are
    no functions, so no [toJSON] method and no accessor. *)

Inductive object :=
| OObj (props : list (string * value))
| OArr (elems : list value).

Abbreviation heap := (list object).

Fixpoint lookup_prop (props : list (string * value)) (k : string) : option value :=
  match props with
  | [] => None
  | (k', v) :: props' => if String.eqb k' k then Some v else lookup_prop props' k
  end.

(** What reading a property gives: its value, or [undefined]. *)
Definition property (props : list (string * value)) (k : string) : value :=
  match lookup_prop props k with
  | Some x => x
  | None => VUndefined
  end.

(** [CreateDataProperty]: an existing property keeps its place. *)
Fixpoint define_prop (props : list (string * value)) (k : string) (v : value)
  : list (string * value) :=
  match props with
  | [] => [(k, v)]
  | (k', v') :: props' =>
      if String.eqb k' k then (k', v) :: props' else (k', v') :: define_prop props' k v
  end.

(** Computations on the heap that return, throw or leave the model. *)
Definition M (A : Type) : Type := heap -> outcome A * heap.

Definition ret {A} (a : A) : M A := fun h => (Returns a, h).

Definition lift {A} (o : outcome A) : M A := fun h => (o, h).

Definition bindM {A B} (m : M A) (k : A -> M B) : M B :=
  fun h =>
    match m h with
    | (Returns a, h') => k a h'
    | (Throws e, h') => (Throws e, h')
    | (Unmodelled, h') => (Unmodelled, h')
    end.

Notation "'let*' x ':=' m 'in' k" := (bindM m (fun x => k))
  (at level 10, x name, m at level 100, k at level 200).

Definition alloc (o : object) : M value :=
  fun h => (Returns (VObject (List.length h)), (h ++ [o])%list).

(** [v[k]] for a property name [k] that is neither an array index nor
    defined by a built-in prototype, as [behavior_tags], [sentiment] and
    [content] are: reading it from a primitive or from an array gives
    [undefined], reading it from [undefined] or [null] throws. *)
Definition Get (v : value) (k : string) : M value :=
  fun h =>
    match v with
    | VUndefined | VNull => (Throws TypeError, h)
    | VBoolean _ | VNumber _ | VString _ => (Returns VUndefined, h)
    | VObject l =>
        match h !! l with
        | Some (OObj props) => (Returns (property props k), h)
        | Some (OArr _) => (Returns VUndefined, h)
        | None => (Unmodelled, h)
        end
    end.

(** [v[k] = x] in strict code, as the body of a class is: assigning to a
    property of a primitive throws. A named property of an array is outside
    the model. *)
Definition Set_ (v : value) (k : string) (x : value) : M unit :=
  fun h =>
    match v with
    | VObject l =>
        match h !! l with
        | Some (OObj props) => (Returns tt, <[l := OObj (define_prop props k x)]> h)
        | Some (OArr _) | None => (Unmodelled, h)
        end
    | _ => (Throws TypeError, h)
    end.

(** ** JSON

    A JSON text is identified with its syntax tree: [JSON.stringify]
    produces the tree and [JSON.parse] consumes it. *)

#[warnings="-register-all"]
Inductive JSON :=
| JNull
| JBoolean (b : bool)
| JNumber (x : float)
| JString (s : string)
| JArray (elems : list JSON)
| JObject (members : list (string * JSON)).

(** The JSON text of a Number: [null] for NaN and the infinities, the
    numeral of 0 for -0, and for every other number a numeral that is
    read back as the same number. *)
Definition Number_json (x : float) : JSON :=
  if is_finite x then JNumber (if is_zero x then 0 else x) else JNull.

(** The properties of an object, serialized in order by [ser]; a property
    whose value has no JSON form is left out. *)
Fixpoint serialize_members (ser : value -> outcome (option JSON))
    (props : list (string * value)) : outcome (list (string * JSON)) :=
  match props with
  | [] => Returns []
  | (k, v) :: props' =>
      bind (ser v) (fun o =>
      bind (serialize_members ser props') (fun ms =>
      Returns (match o with Some j => (k, j) :: ms | None => ms end)))
  end.

(** The elements of an array; an element without JSON form becomes
    [null]. *)
Fixpoint serialize_elements (ser : value -> outcome (option JSON))
    (elems : list value) : outcome (list JSON) :=
  match elems with
  | [] => Returns []
  | v :: elems' =>
      bind (ser v) (fun o =>
      bind (serialize_elements ser elems') (fun js =>
      Returns (match o with Some j => j | None => JNull end :: js)))
  end.

(** [SerializeJSONProperty]: [stack] holds the objects being serialized,
    and meeting one of them again is the TypeError of a cyclic structure.
    [None] is the result [undefined]. The recursion is bounded by [fuel]. *)
Fixpoint SerializeJSONProperty (fuel : nat) (h : heap) (stack : list loc) (v : value)
  : outcome (option JSON) :=
  match v with
  | VUndefined => Returns None
  | VNull => Returns (Some JNull)
  | VBoolean b => Returns (Some (JBoolean b))
  | VNumber x => Returns (Some (Number_json x))
  | VString s => Returns (Some (JString s))
  | VObject l =>
      match fuel with
      | O => Unmodelled
      | S fuel' =>
          if existsb (Nat.eqb l) stack then Throws TypeError
          else
            match h !! l with
            | Some (OObj props) =>
                bind (serialize_members (SerializeJSONProperty fuel' h (l :: stack)) props)
                     (fun ms => Returns (Some (JObject ms)))
            | Some (OArr elems) =>
                bind (serialize_elements (SerializeJSONProperty fuel' h (l :: stack)) elems)
                     (fun js => Returns (Some (JArray js)))
            | None => Unmodelled
            end
      end
  end.

(** [JSON.stringify(v)]. A chain of nested objects without repetition is
    no longer than the heap, so the fuel is never used up. *)
Definition JSON_stringify (v : value) : M (option JSON) :=
  fun h => (SerializeJSONProperty (S (List.length h)) h [] v, h).

(** The value of a JSON tree and the objects created for it, the first of
    them at location [lo]; an object is created after its parts. The
    members of an object are defined in order, so of two members with one
    name the second gives the value. *)
Fixpoint revive (lo : nat) (j : JSON) : value * list object :=
  match j with
  | JNull => (VNull, [])
  | JBoolean b => (VBoolean b, [])
  | JNumber x => (VNumber x, [])
  | JString s => (VString s, [])
  | JArray elems =>
      let '(vs, ext) :=
        (fix revive_elements (lo : nat) (elems : list JSON) : list value * list object :=
           match elems with
           | [] => ([], [])
           | e :: elems' =>
               let '(v, x) := revive lo e in
               let '(vs, xs) := revive_elements (lo + List.length x)%nat elems' in
               (v :: vs, (x ++ xs)%list)
           end) lo elems in
      (VObject (lo + List.length ext)%nat, (ext ++ [OArr vs])%list)
  | JObject members =>
      let '(props, ext) :=
        (fix revive_members (lo : nat) (members : list (string * JSON))
           : list (string * value) * list object :=
           match members with
           | [] => ([], [])
           | (k, e) :: members' =>
               let '(v, x) := revive lo e in
               let '(props, xs) := revive_members (lo + List.length x)%nat members' in
               ((k, v) :: props, (x ++ xs)%list)
           end) lo members in
      (VObject (lo + List.length ext)%nat,
       (ext ++ [OObj (fold_left (fun ps p => define_prop ps (fst p) (snd p)) props [])])%list)
  end.


(** The two loops of [revive], by name. *)
Fixpoint revive_elements (lo : nat) (elems : list JSON) : list value * list object :=
  match elems with
  | [] => ([], [])
  | e :: elems' =>
      let '(v, x) := revive lo e in
      let '(vs, xs) := revive_elements (lo + List.length x)%nat elems' in
      (v :: vs, (x ++ xs)%list)
  end.

Fixpoint revive_members (lo : nat) (members : list (string * JSON))
  : list (string * value) * list object :=
  match members with
  | [] => ([], [])
  | (k, e) :: members' =>
      let '(v, x) := revive lo e in
      let '(props, xs) := revive_members (lo + List.length x)%nat members' in
      ((k, v) :: props, (x ++ xs)%list)
  end.

(** [Object.fromEntries]-like: the properties defined one after the other. *)
Definition define_all (props : list (string * value)) : list (string * value) :=
  fold_left (fun ps p => define_prop ps (fst p) (snd p)) props [].

(** [JSON.parse(text)]; the text of [undefined] is not JSON. *)
Definition JSON_parse (text : option JSON) : M value :=
  fun h =>
    match text with
    | Some j => let '(v, ext) := revive (List.length h) j in (Returns v, (h ++ ext)%list)
    | None => (Throws SyntaxError, h)
    end.

(** ** [analyze] *)

(** The string that names a sentiment. *)
Definition sentiment_name (s : sentiment) : string :=
  match s with
  | neutral => "neutral"
  | positive => "positive"
  | negative => "negative"
  | frustration => "frustration"
  | excitement => "excitement"
  end.

(** The object literal [{ detected: analysis.type, confidence:
    analysis.confidence }]. *)
Definition sentiment_object (analysis : Analysis) : object :=
  OObj [("detected", VString (sentiment_name (type analysis)));
        ("confidence", VNumber (confidence analysis))].

(** The statements of [analyze] that follow the copy of the message. *)
Definition analyze_copy (exec : engine) (self : SentimentAnalyzer) (message result : value)
  : M value :=
  let* tags := Get result "behavior_tags" in
  let* _ := (if negb (truthy tags)
             then let* empty := alloc (OObj []) in Set_ result "behavior_tags" empty
             else ret tt) in
  let* tags := Get result "behavior_tags" in
  let* existing := Get tags "sentiment" in
  if truthy existing then ret result
  else
    let* content := Get message "content" in
    let* analysis := lift (analyzeSentiment exec self content) in
    let* tags := Get result "behavior_tags" in
    let* tag := alloc (sentiment_object analysis) in
    let* _ := Set_ tags "sentiment" tag in
    ret result.

Definition analyze (exec : engine) (self : SentimentAnalyzer) (message : value) : M value :=
  let* text := JSON_stringify message in
  let* result := JSON_parse text in
  analyze_copy exec self message result.

(** ** Notions used to state the properties *)

(** The term is made of pattern characters only: it has no syntax
    character. *)
Fixpoint plain (t : string) : bool :=
  match t with
  | EmptyString => true
  | String c t' => negb (SyntaxCharacter c) && plain t'
  end.

Definition plain_terms (d : Dictionary) : bool := forallb (fun e => plain (fst e)) d.

(** The characters of [t] stand at the head of [s], compared through
    [Canonicalize]. *)
Fixpoint match_chars (t s : string) : bool :=
  match t, s with
  | EmptyString, _ => true
  | String _ _, EmptyString => false
  | String a t', String b s' =>
      Ascii.eqb (Canonicalize a) (Canonicalize b) && match_chars t' s'
  end.

(** The occurrences of a term in a text, the term taken as text: read
    from left to right, compared without regard to case, an occurrence
    starting only where the previous one has ended. *)
Fixpoint occurrences_from (t s : string) (skip : nat) : nat :=
  match skip with
  | S skip' =>
      match s with
      | EmptyString => 0
      | String _ s' => occurrences_from t s' skip'
      end
  | O =>
      match s with
      | EmptyString => if match_chars t s then 1 else 0
      | String _ s' =>
          if match_chars t s
          then S (occurrences_from t s' (Nat.pred (String.length t)))
          else occurrences_from t s' 0
      end
  end.

Definition occurrences (t s : string) : nat := occurrences_from t s 0.

(** The sum, entry after entry in the order of the lexicon, of weight
    times number of occurrences over the entries that occur. *)
Definition weighted_occurrences (d : Dictionary) (s : string) : float :=
  fold_left (fun acc e =>
               if (0 <? occurrences (fst e) s)%nat
               then acc + snd e * Number_of_nat (occurrences (fst e) s)
               else acc) d 0.

(** The number of whitespace-delimited tokens: the maximal runs of
    characters that are not white space. *)
Fixpoint token_count_from (inside : bool) (s : string) : nat :=
  match s with
  | EmptyString => 0
  | String c s' =>
      if IsWhiteSpace c then token_count_from false s'
      else ((if inside then 0 else 1) + token_count_from true s')%nat
  end.

Definition token_count (s : string) : nat := token_count_from false s.

(** The text begins with white space; the text ends with white space. *)
Definition leading_space (s : string) : bool :=
  match s with
  | EmptyString => false
  | String c _ => IsWhiteSpace c
  end.

Fixpoint trailing_space (s : string) : bool :=
  match s with
  | EmptyString => false
  | String c EmptyString => IsWhiteSpace c
  | String _ s' => trailing_space s'
  end.

(** The pieces between the runs of white space: the tokens, an empty
    piece before leading white space and one after trailing white space. *)
Definition pieces (s : string) : nat :=
  (token_count s + (if leading_space s then 1 else 0)
   + (if trailing_space s then 1 else 0))%nat.

(** *** The scoring in the words of the specification *)

(** The number of substring occurrences of [t] in [s]: the positions of
    [s] at which [t] stands. *)
Fixpoint substring_occurrences (t s : string) : nat :=
  ((if String.prefix t s then 1 else 0)
   + match s with
     | EmptyString => 0
     | String _ s' => substring_occurrences t s'
     end)%nat.

(** The sum over all entries of weight times number of substring
    occurrences. *)
Definition specified_score (d : Dictionary) (lowerContent : string) : float :=
  fold_left (fun acc e =>
               acc + snd e * Number_of_nat (substring_occurrences (fst e) lowerContent))
            d 0.

(** The result before the confidence floor. *)
Definition specified_result (self : SentimentAnalyzer) (content : string) : Analysis :=
  let lowerContent := toLowerCase content in
  threshold_mapping content lowerContent
    (normalize (specified_score (dictionary self) lowerContent) (token_count lowerContent)).

(** Every occurrence of [t] in [s], the text from position [i] on, ends at
    position [n] at the latest. *)
Fixpoint confined_from (t s : string) (i n : nat) : bool :=
  (negb (match_chars t s) || (i + String.length t <=? n)%nat) &&
  match s with
  | EmptyString => true
  | String _ s' => confined_from t s' (S i) n
  end.

(** Appending [F] to [T] creates no occurrence of [t]: every occurrence in
    the lower-cased [T ++ F] lies within [T]. *)
Definition no_new_occurrence (t T F : string) : bool :=
  confined_from t (toLowerCase (T ++ F)) 0 (String.length T).

Definition frustration_indicators : list string :=
  ["already"; "still"; "multiple times"; "told you"; "doesn't work"].

(** [F] is neutral filler after [T]: no new occurrence of a lexicon term
    or of a frustration indicator, and no exclamation mark. *)
Definition neutral_filler (self : SentimentAnalyzer) (T F : string) : bool :=
  forallb (fun e => no_new_occurrence (fst e) T F) (dictionary self)
  && forallb (fun t => no_new_occurrence t T F) frustration_indicators
  && (count_char "!" F =? 0)%nat.

(** One of the first four special-case checks applies. *)
Definition earlier_special_case (lowerContent : string) : bool :=
  (includes lowerContent "really happy" && includes lowerContent "works great")
  || (includes lowerContent "terrible" && includes lowerContent "disappointed"
      && includes lowerContent "frustrated")
  || (includes lowerContent "told you multiple times"
      || includes lowerContent "still doesn't work")
  || (includes lowerContent "wow" && includes lowerContent "amazing"
      && includes lowerContent "can't believe").

(** *** Notions about numbers

    The binary64 numbers are specified through [Prim2SF], which gives the
    sign, the mantissa and the exponent of a number. *)

(** The sign of a float: NaN has none. *)
Definition sign_of (x : spec_float) : option bool :=
  match x with
  | S754_nan => None
  | S754_zero s | S754_infinity s | S754_finite s _ _ => Some s
  end.

(** A float that is a zero, positive or the positive infinity. *)
Definition nonneg (x : spec_float) : bool :=
  match x with
  | S754_zero _ => true
  | S754_infinity s | S754_finite s _ _ => negb s
  | S754_nan => false
  end.

(** A float that is positive or the positive infinity. *)
Definition above_zero (x : spec_float) : bool :=
  match x with
  | S754_infinity s | S754_finite s _ _ => negb s
  | _ => false
  end.

(** A float that is negative or the negative infinity. *)
Definition below_zero (x : spec_float) : bool :=
  match x with
  | S754_infinity s | S754_finite s _ _ => s
  | _ => false
  end.

(** *** Notions about messages *)

(** The names are pairwise different. *)
Fixpoint distinct (names : list string) : bool :=
  match names with
  | [] => true
  | k :: names' => negb (existsb (String.eqb k) names') && distinct names'
  end.

(** No object of the heap lists a property name twice, as in every heap
    of JavaScript. *)
Definition object_ok (o : object) : bool :=
  match o with
  | OObj props => distinct (map fst props)
  | OArr _ => true
  end.

Definition heap_ok (h : heap) : bool := forallb object_ok h.

(** The number is the one that its JSON numeral is read back as: it is
    finite and not -0. *)
Definition number_ok (x : float) : bool :=
  is_finite x && (negb (is_zero x) || Leibniz.eqb x 0).

(** No object of the JSON text has two members of one name, and every
    number is one that a numeral stands for. *)
Fixpoint json_ok (j : JSON) : bool :=
  match j with
  | JNumber x => number_ok x
  | JArray elems => forallb json_ok elems
  | JObject members =>
      distinct (map fst members) && forallb (fun m => json_ok (snd m)) members
  | _ => true
  end.

(** The member [k] of a JSON object. *)
Fixpoint member (members : list (string * JSON)) (k : string) : option JSON :=
  match members with
  | [] => None
  | (k', j) :: members' => if String.eqb k' k then Some j else member members' k
  end.

(** The members with [k] set to [j]: in place, or as a new last member. *)
Fixpoint with_member (members : list (string * JSON)) (k : string) (j : JSON)
  : list (string * JSON) :=
  match members with
  | [] => [(k, j)]
  | (k', j') :: members' =>
      if String.eqb k' k then (k', j) :: members' else (k', j') :: with_member members' k j
  end.

(** The members of a JSON value that is an object; no other value has any. *)
Definition members_of (j : option JSON) : list (string * JSON) :=
  match j with
  | Some (JObject members) => members
  | _ => []
  end.

(** The field [k] of a JSON value, if it is an object that has one. *)
Definition field (j : option JSON) (k : string) : option JSON :=
  member (members_of j) k.

(** The truth value of the value that a JSON text stands for. *)
Definition json_truthy (j : JSON) : bool :=
  match j with
  | JNull => false
  | JBoolean b => b
  | JNumber x => Number_truthy x
  | JString s => negb (String.eqb s "")
  | JArray _ | JObject _ => true
  end.

Definition truthy_member (members : list (string * JSON)) (k : string) : bool :=
  match member members k with
  | Some j => json_truthy j
  | None => false
  end.

(** [behavior_tags] can receive the tag: it is absent, does not count as
    true (and is replaced by an empty object), or is an object. *)
Definition taggable (tags : option JSON) : bool :=
  match tags with
  | None => true
  | Some (JObject _) => true
  | Some (JArray _) => false
  | Some t => negb (json_truthy t)
  end.

(** The JSON form of the tag that [analyze] attaches. *)
Definition sentiment_tag (a : Analysis) : JSON :=
  JObject [("detected", JString (sentiment_name (type a)));
           ("confidence", Number_json (confidence a))].

(** The JSON text of a value in a heap. *)
Definition json_of (h : heap) (v : value) : outcome (option JSON) :=
  fst (JSON_stringify v h).

(** The heap [H] holds the objects [ext] from location [lo] on. *)
Definition holds (H : heap) (lo : nat) (ext : list object) : Prop :=
  forall i o, ext !! i = Some o -> H !! (lo + i)%nat = Some o.

(** The locations of [stack] lie outside [lo], ..., [lo + n - 1]. *)
Definition outside (stack : list loc) (lo n : nat) : Prop :=
  forall a, In a stack -> (a < lo \/ lo + n <= a)%nat.

(** An engine that answers nothing: the examples below have no term of
    the third class, and never ask it. *)
Definition no_engine : engine := fun _ _ => Unmodelled.

(** What the built-in regular expressions answer for the term [a+] on
    the text [great]: the expression [/\ba+\b|a+/gi] matches once, at the
    letter a. *)
Definition plus_engine : engine :=
  fun term text =>
    if String.eqb term "a+" && String.eqb text "great" then Returns 1%nat else Unmodelled.

(** The analyzer built without options. *)
Definition default_analyzer : SentimentAnalyzer :=
  constructor {| opt_confidenceThreshold := None; opt_customDictionary := None |}.

(** Analyzers and texts of the examples. *)

Definition emoticon_analyzer : SentimentAnalyzer :=
  constructor {| opt_confidenceThreshold := None;
                 opt_customDictionary := Some [(":)", 1.0)] |}.

(** The analyzer and the text of the custom-dictionary test of
    [tests/middleware/sentiment.test.js]. *)
Definition specialized_analyzer : SentimentAnalyzer :=
  constructor {| opt_confidenceThreshold := None;
                 opt_customDictionary :=
                   Some [("specialized_term", 1.8); ("domain_specific_negative", -1.7)] |}.

Definition specialized_text : string :=
  "This contains a specialized_term that should be highly positive".

Definition strict_analyzer : SentimentAnalyzer :=
  constructor {| opt_confidenceThreshold := Some 0.99; opt_customDictionary := None |}.

(** The analyzer of the test of the confidence threshold. *)
Definition cautious_analyzer : SentimentAnalyzer :=
  constructor {| opt_confidenceThreshold := Some 0.9; opt_customDictionary := None |}.

(** A lexicon with a term in capitals, and one with a term of dots. *)
Definition capital_analyzer : SentimentAnalyzer :=
  constructor {| opt_confidenceThreshold := None;
                 opt_customDictionary := Some [("OK", 1.0)] |}.

(** A lexicon with a weight that is no finite number. *)
Definition unbounded_analyzer : SentimentAnalyzer :=
  constructor {| opt_confidenceThreshold := None;
                 opt_customDictionary := Some [("zzz", infinity)] |}.

(** A lexicon with a quantified term, and a high threshold. *)
Definition plus_analyzer : SentimentAnalyzer :=
  constructor {| opt_confidenceThreshold := Some 0.99;
                 opt_customDictionary := Some [("a+", 1.0)] |}.

Definition dotted_analyzer : SentimentAnalyzer :=
  constructor {| opt_confidenceThreshold := None;
                 opt_customDictionary := Some [("...", -0.1)] |}.

Definition excited_text : string :=
  "Wow! This is amazing! I can't believe how well it works!".

(** Heaps with one message each, the message being the last object: a
    message with non-text content and empty tags, as in the tests of the
    edge cases; one whose tags hold a sentiment given by the caller, as in
    the test of existing sentiment data; one whose sentiment is [null]. *)

Definition numeric_message : heap :=
  [ OObj [];
    OObj [("content", VNumber 123); ("behavior_tags", VObject 0%nat)] ].

Definition null_message : heap :=
  [ OObj [];
    OObj [("content", VNull); ("behavior_tags", VObject 0%nat)] ].

Definition custom_message : heap :=
  [ OObj [("detected", VString "custom_sentiment"); ("confidence", VNumber 0.95)];
    OObj [("sentiment", VObject 0%nat)];
    OObj [("content", VNull); ("behavior_tags", VObject 1%nat)] ].


(** A message with a text and empty tags, and a message that holds
    itself. *)
Definition thanks_message : heap :=
  [ OObj [];
    OObj [("content", VString "Thanks :)"); ("behavior_tags", VObject 0%nat)] ].


(** The message [{content: 123, behavior_tags: {}, list: [undefined],
    maybe: undefined}]. *)
Definition sparse_message : heap :=
  [ OObj [];
    OArr [VUndefined];
    OObj [("content", VNumber 123); ("behavior_tags", VObject 0%nat);
          ("list", VObject 1%nat); ("maybe", VUndefined)] ].

(** * Properties of the regular expressions *)

Lemma plain_classify (t : string) : plain t = true -> classify_term t = FixedLength.
Proof.
  induction t as [|c t IH]; [reflexivity|]. cbn [plain classify_term].
  intros [Hc Ht]%andb_prop. rewrite (IH Ht).
  destruct (Ascii.eqb c ")") eqn:E1.
  { apply Ascii.eqb_eq in E1. subst c. discriminate Hc. }
  destruct (Ascii.eqb c ".") eqn:E2; [reflexivity|].
  now rewrite (negb_true_iff _) in Hc; rewrite Hc.
Qed.

Lemma plain_match_pattern (t : string) :
  plain t = true -> forall s, match_pattern t s = match_chars t s.
Proof.
  induction t as [|c t IH]; intros Hp s; [reflexivity|].
  cbn [plain] in Hp. apply andb_prop in Hp. destruct Hp as [Hc Ht].
  destruct s as [|b s]; [reflexivity|]. cbn [match_pattern match_chars].
  rewrite (IH Ht). destruct (Ascii.eqb c ".") eqn:E; [|reflexivity].
  apply Ascii.eqb_eq in E. subst c. discriminate Hc.
Qed.

(** The second alternative of the expression matches wherever the first
    one does, with the same length: the assertions add nothing. *)
Lemma match_here_pattern (re : RegExp) (prev : option ascii) (s : string) :
  match_here re prev s =
  if match_pattern (source_term re) s then Some (String.length (source_term re)) else None.
Proof.
  unfold match_here, match_bounded.
  destruct (match_pattern (source_term re) s).
  - now destruct (_ && true && _).
  - now rewrite andb_false_r.
Qed.

Lemma count_matches_from_occurrences (re : RegExp) (s : string) :
  plain (source_term re) = true ->
  forall prev skip,
    count_matches_from re prev s skip = occurrences_from (source_term re) s skip.
Proof.
  intros Hp. induction s as [|c s IH]; intros prev skip.
  - destruct skip; simpl; [|reflexivity].
    rewrite match_here_pattern, (plain_match_pattern _ Hp). now destruct (match_chars _ _).
  - destruct skip; simpl.
    + rewrite match_here_pattern, (plain_match_pattern _ Hp).
      destruct (match_chars _ _); now rewrite IH.
    + apply IH.
Qed.

(** For a term without syntax characters the expression counts the
    occurrences of the term, whatever the engine. *)
Lemma count_matches_plain (exec : engine) (t lc : string) :
  plain t = true -> count_matches exec t lc = Returns (occurrences t lc).
Proof.
  intros Hp. unfold count_matches. rewrite (plain_classify _ Hp). f_equal.
  now apply (count_matches_from_occurrences {| source_term := t |}).
Qed.

(** * Properties of the scoring loop *)

Lemma scan_dictionary_plain (exec : engine) (lc : string) (d : Dictionary) :
  plain_terms d = true ->
  forall acc, exists matchCount,
    scan_dictionary exec lc d acc
    = Returns (fold_left (fun a e =>
                            if (0 <? occurrences (fst e) lc)%nat
                            then a + snd e * Number_of_nat (occurrences (fst e) lc)
                            else a) d (fst acc), matchCount).
Proof.
  induction d as [|[t w] d IH]; intros Hp acc; cbn [scan_dictionary fold_left].
  - exists (snd acc). now destruct acc.
  - apply andb_prop in Hp. destruct Hp as [Ht Hd]. cbn [fst] in Ht.
    destruct acc as [s m]. unfold scan_entry. rewrite (count_matches_plain _ _ _ Ht).
    cbn [bind fst snd]. destruct (0 <? _)%nat; cbn [bind]; apply (IH Hd).
Qed.

(** * Unfolding [analyzeSentiment] *)

Lemma truthy_text (text : string) : text <> "" -> truthy (VString text) = true.
Proof. destruct text; simpl; congruence. Qed.

Lemma special_case_text (self : SentimentAnalyzer) (text : string) (fixed : Analysis) :
  special_case self (toLowerCase text) = Some fixed -> text <> "".
Proof. intros H ->. simpl in H. discriminate. Qed.

Lemma analyzeSentiment_special (exec : engine) (self : SentimentAnalyzer) (text : string)
    (fixed : Analysis) :
  special_case self (toLowerCase text) = Some fixed ->
  analyzeSentiment exec self (VString text) = Returns fixed.
Proof.
  intros H. unfold analyzeSentiment.
  rewrite (truthy_text _ (special_case_text _ _ _ H)). simpl. now rewrite H.
Qed.

(** The scoring path: the guard passed and no special case applies. *)
Lemma analyzeSentiment_scoring (exec : engine) (self : SentimentAnalyzer) (text : string) :
  text <> "" ->
  special_case self (toLowerCase text) = None ->
  analyzeSentiment exec self (VString text) =
  bind (scan_dictionary exec (toLowerCase text) (dictionary self) (0, 0%nat)) (fun acc =>
    let r := threshold_mapping text (toLowerCase text)
               (normalize (fst acc) (split_length (toLowerCase text))) in
    Returns (if lt (confidence r) (confidenceThreshold (config self))
             then {| type := neutral; confidence := 0.8 |} else r)).
Proof.
  intros Ht Hs. unfold analyzeSentiment.
  rewrite (truthy_text _ Ht). cbn [negb]. rewrite Hs.
  destruct (scan_dictionary _ _ _ _) as [acc| |]; cbn [bind]; try reflexivity.
  now destruct (lt _ _).
Qed.

Lemma normalize_split (score : float) (s : string) :
  normalize score (split_length s) = score / sqrt (Number_of_nat (split_length s)).
Proof. reflexivity. Qed.

(** * The word count *)

Lemma toLowerCase_nonempty (s : string) : s <> "" -> toLowerCase s <> "".
Proof. destruct s; simpl; congruence. Qed.

Lemma trailing_space_cons (c : ascii) (s : string) :
  trailing_space (String c s) = match s with
                                | EmptyString => IsWhiteSpace c
                                | String _ _ => trailing_space s
                                end.
Proof. reflexivity. Qed.

Lemma separators_tokens (s : string) :
  (separators true s + 1
   = token_count_from false s
     + (if match s with EmptyString => true | String _ _ => trailing_space s end
        then 1 else 0))%nat
  /\ (separators false s
      = token_count_from true s + (if trailing_space s then 1 else 0))%nat.
Proof.
  induction s as [|c s [IH1 IH2]]; [split; reflexivity|].
  cbn [separators token_count_from]. rewrite trailing_space_cons.
  destruct (IsWhiteSpace c) eqn:Hc.
  - destruct s as [|c' s]; [split; reflexivity|]. split; lia.
  - destruct s as [|c' s]; [split; reflexivity|]. split; lia.
Qed.

(** [split(/\s+/)] gives the tokens and the empty pieces at the two
    ends of a text that is not empty. *)
Lemma split_length_pieces (s : string) : s <> "" -> split_length s = pieces s.
Proof.
  destruct s as [|c s]; [now intros H|]. intros _.
  unfold split_length, pieces, token_count.
  cbn [separators token_count_from leading_space]. rewrite trailing_space_cons.
  destruct (separators_tokens s) as [H1 H2].
  destruct (IsWhiteSpace c) eqn:Hc; destruct s as [|c' s]; try reflexivity; lia.
Qed.

(** * Binary64 arithmetic *)

Section Rounding.
Local Open Scope Z_scope.

Lemma digits2_bounds (p : Pos.t) :
  2 ^ (Zpos (digits2_pos p) - 1) <= Zpos p < 2 ^ Zpos (digits2_pos p).
Proof.
  induction p as [p IH|p IH|]; cbn [digits2_pos].
  - rewrite Pos2Z.inj_succ, (Pos2Z.inj_xI p).
    replace (Z.succ (Zpos (digits2_pos p)) - 1) with (Z.succ (Zpos (digits2_pos p) - 1)) by lia.
    rewrite !Z.pow_succ_r by lia. lia.
  - rewrite Pos2Z.inj_succ, (Pos2Z.inj_xO p).
    replace (Z.succ (Zpos (digits2_pos p)) - 1) with (Z.succ (Zpos (digits2_pos p) - 1)) by lia.
    rewrite !Z.pow_succ_r by lia. lia.
  - change (2 ^ (1 - 1) <= 1 < 2 ^ 1). cbn. lia.
Qed.

Lemma digits2_above (p : Pos.t) (k : Z) :
  0 <= k -> 2 ^ k <= Zpos p -> k < Zpos (digits2_pos p).
Proof.
  intros Hk Hp. destruct (digits2_bounds p) as [_ Hd].
  destruct (Z.lt_ge_cases k (Zpos (digits2_pos p))) as [H|H]; [exact H|].
  pose proof (Z.pow_le_mono_r 2 _ _ ltac:(lia) H). lia.
Qed.

Lemma digits2_below (p : Pos.t) (k : Z) :
  0 <= k -> Zpos p < 2 ^ k -> Zpos (digits2_pos p) <= k.
Proof.
  intros Hk Hp. destruct (digits2_bounds p) as [Hd _].
  destruct (Z.le_gt_cases (Zpos (digits2_pos p)) k) as [H|H]; [exact H|].
  pose proof (Z.pow_le_mono_r 2 k (Zpos (digits2_pos p) - 1) ltac:(lia) ltac:(lia)). lia.
Qed.

Lemma shr_1_half (mrs : shr_record) :
  0 <= shr_m mrs -> shr_m (shr_1 mrs) = shr_m mrs / 2.
Proof.
  destruct mrs as [m r s]. cbn [shr_m]. intros Hm.
  destruct m as [|[p|p|]|p]; cbn [shr_1 shr_m].
  - reflexivity.
  - rewrite (Pos2Z.inj_xI p). apply (Z.div_unique _ _ _ 1); lia.
  - rewrite (Pos2Z.inj_xO p). apply (Z.div_unique _ _ _ 0); lia.
  - reflexivity.
  - lia.
Qed.

Lemma iter_shr_1 (n : Pos.t) (mrs : shr_record) :
  0 <= shr_m mrs -> shr_m (SpecFloat.iter_pos shr_1 n mrs) = shr_m mrs / 2 ^ Zpos n.
Proof.
  revert mrs. induction n as [n IH|n IH|]; intros mrs Hm; cbn [SpecFloat.iter_pos].
  - assert (H1 : 0 <= shr_m (shr_1 mrs)).
    { rewrite shr_1_half by exact Hm. apply Z.div_pos; lia. }
    assert (H2 : 0 <= shr_m (SpecFloat.iter_pos shr_1 n (shr_1 mrs))).
    { rewrite IH by exact H1. apply Z.div_pos; [exact H1|]. apply Z.pow_pos_nonneg; lia. }
    rewrite IH by exact H2. rewrite IH by exact H1. rewrite shr_1_half by exact Hm.
    rewrite !Z.div_div by (try apply Z.pow_pos_nonneg; lia).
    rewrite (Pos2Z.inj_xI n). f_equal.
    replace (2 * Zpos n + 1) with (1 + Zpos n + Zpos n) by lia.
    rewrite !Z.pow_add_r by lia. change (2 ^ 1) with 2. ring.
  - assert (H2 : 0 <= shr_m (SpecFloat.iter_pos shr_1 n mrs)).
    { rewrite IH by exact Hm. apply Z.div_pos; [exact Hm|]. apply Z.pow_pos_nonneg; lia. }
    rewrite IH by exact H2. rewrite IH by exact Hm.
    rewrite !Z.div_div by (try apply Z.pow_pos_nonneg; lia).
    rewrite (Pos2Z.inj_xO n). f_equal.
    replace (2 * Zpos n) with (Zpos n + Zpos n) by lia.
    rewrite !Z.pow_add_r by lia. ring.
  - rewrite shr_1_half by exact Hm. reflexivity.
Qed.

(** The shift of [shr]: the mantissa is divided, the exponent raised. *)
Lemma shr_shift (m : Z) (e n : Z) :
  0 <= m -> 0 <= n ->
  shr_m (fst (shr (shr_record_of_loc m loc_Exact) e n)) = m / 2 ^ n
  /\ snd (shr (shr_record_of_loc m loc_Exact) e n) = e + n.
Proof.
  intros Hm Hn. destruct n as [|n|n]; cbn [shr fst snd shr_record_of_loc shr_m]; try lia.
  - rewrite Z.div_1_r. lia.
  - split; [|reflexivity]. now rewrite iter_shr_1.
Qed.

Lemma round_nearest_even_bounds (m : Z) (l : location) :
  m <= round_nearest_even m l <= m + 1.
Proof.
  destruct l as [|[| |]]; cbn [round_nearest_even]; try lia.
  destruct (Z.even m); lia.
Qed.

Lemma shr_record_of_loc_m (m : Z) (l : location) : shr_m (shr_record_of_loc m l) = m.
Proof. now destruct l as [|[| |]]. Qed.

Lemma shr_nonneg (mrs : shr_record) (e n : Z) :
  0 <= shr_m mrs -> 0 <= shr_m (fst (shr mrs e n)).
Proof.
  intros Hm. destruct n as [|n|n]; cbn [shr fst]; try exact Hm.
  rewrite iter_shr_1 by exact Hm. apply Z.div_pos; [exact Hm|]. apply Z.pow_pos_nonneg; lia.
Qed.

(** Rounding a mantissa that is not negative gives a number of the sign
    asked for. *)
Lemma binary_round_aux_sign (s : bool) (m e : Z) (l : location) :
  0 <= m -> sign_of (binary_round_aux prec emax s m e l) = Some s.
Proof.
  intros Hm. unfold binary_round_aux, shr_fexp.
  pose proof (shr_nonneg (shr_record_of_loc m l) e
                (fexp prec emax (Zdigits2 m + e) - e)) as H1.
  rewrite shr_record_of_loc_m in H1. specialize (H1 Hm).
  destruct (shr (shr_record_of_loc m l) e (fexp prec emax (Zdigits2 m + e) - e))
    as [mrs' e'].
  cbn [fst] in H1.
  pose proof (round_nearest_even_bounds (shr_m mrs') (loc_of_shr_record mrs')) as H2.
  set (m2 := round_nearest_even (shr_m mrs') (loc_of_shr_record mrs')) in *.
  pose proof (shr_nonneg (shr_record_of_loc m2 loc_Exact) e'
                (fexp prec emax (Zdigits2 m2 + e') - e')) as H3.
  rewrite shr_record_of_loc_m in H3. specialize (H3 ltac:(lia)).
  destruct (shr (shr_record_of_loc m2 loc_Exact) e' (fexp prec emax (Zdigits2 m2 + e') - e'))
    as [mrs'' e''].
  cbn [fst] in H3.
  destruct (shr_m mrs'') as [|p|p]; [reflexivity| |lia].
  now destruct (e'' <=? emax - prec).
Qed.

(** Rounding a mantissa of at least [m0 * 2 ^ (e0 - ez)] at the exponent
    [ez] gives at least the normal number of mantissa [m0] and exponent
    [e0]. *)
Lemma binary_round_above (m0 M : Pos.t) (e0 ez : Z) :
  2 ^ 52 <= Zpos m0 ->
  -1074 <= e0 ->
  ez <= e0 ->
  Zpos m0 * 2 ^ (e0 - ez) <= Zpos M ->
  SFleb (S754_finite false m0 e0) (binary_round prec emax false M ez) = true.
Proof.
  intros Hm0 He0 Hez HM.
  set (d := Zpos (digits2_pos M)).
  assert (Hd : 52 + (e0 - ez) < d).
  { apply digits2_above; [lia|]. rewrite Z.pow_add_r by lia.
    pose proof (Z.pow_pos_nonneg 2 (e0 - ez) ltac:(lia) ltac:(lia)). nia. }
  destruct (digits2_bounds M) as [Hlo Hhi]. fold d in Hlo, Hhi.
  assert (Hfexp : fexp prec emax (d + ez) = d + ez - 53).
  { unfold fexp, emin, prec, emax. lia. }
  unfold binary_round. fold d. rewrite Hfexp.
  assert (Hal : shl_align M ez (d + ez - 53) = (M, ez)).
  { unfold shl_align. destruct (d + ez - 53 - ez) eqn:E; try reflexivity. lia. }
  rewrite Hal. unfold binary_round_aux, shr_fexp.
  cbn [Zdigits2]. fold d. rewrite Hfexp.
  destruct (shr_shift (Zpos M) ez (d + ez - 53 - ez) ltac:(lia) ltac:(lia)) as [Hs1 Hs2].
  destruct (shr (shr_record_of_loc (Zpos M) loc_Exact) ez (d + ez - 53 - ez)) as [mrs' e'].
  cbn [fst snd] in Hs1, Hs2.
  replace (d + ez - 53 - ez) with (d - 53) in Hs1 by lia.
  assert (Hm1 : 2 ^ 52 <= shr_m mrs' < 2 ^ 53).
  { rewrite Hs1. split.
    - apply Z.div_le_lower_bound; [apply Z.pow_pos_nonneg; lia|].
      rewrite <- Z.pow_add_r by lia. now replace (d - 53 + 52) with (d - 1) by lia.
    - apply Z.div_lt_upper_bound; [apply Z.pow_pos_nonneg; lia|].
      rewrite <- Z.pow_add_r by lia. now replace (d - 53 + 53) with d by lia. }
  assert (Hm1' : e' = e0 -> Zpos m0 <= shr_m mrs').
  { intros He. rewrite Hs1. apply Z.div_le_lower_bound; [apply Z.pow_pos_nonneg; lia|].
    replace (d - 53) with (e0 - ez) by lia. lia. }
  pose proof (round_nearest_even_bounds (shr_m mrs') (loc_of_shr_record mrs')) as H2.
  set (m2 := round_nearest_even (shr_m mrs') (loc_of_shr_record mrs')) in *.
  change (2 ^ 52) with 4503599627370496 in *.
  change (2 ^ 53) with 9007199254740992 in *.
  destruct m2 as [|p2|p2] eqn:Em2; try lia.
  cbn [Zdigits2].
  destruct (Z.eq_dec (Zpos p2) 9007199254740992) as [Htop|Htop].
  - injection Htop as ->.
    unfold fexp, emin, prec, emax.
    replace (Z.max (Zpos (digits2_pos 9007199254740992) + e' - 53) (3 - 1024 - 53) - e')
      with 1 by (change (Zpos (digits2_pos 9007199254740992)) with 54; lia).
    cbn [shr shr_record_of_loc SpecFloat.iter_pos shr_1 shr_m].
    destruct (e' + 1 <=? 1024 - 53); [|reflexivity].
    unfold SFleb, SFcompare.
    destruct (e0 ?= e' + 1) eqn:E; try reflexivity.
    + apply Z.compare_eq in E. lia.
    + apply Z.compare_gt_iff in E. lia.
  - assert (Hd2 : Zpos (digits2_pos p2) = 53).
    { apply Z.le_antisymm.
      - apply digits2_below; [lia|]. change (2 ^ 53) with 9007199254740992. lia.
      - pose proof (digits2_above p2 52 ltac:(lia)) as H.
        change (2 ^ 52) with 4503599627370496 in H. lia. }
    rewrite Hd2. unfold fexp, emin, prec, emax.
    replace (Z.max (53 + e' - 53) (3 - 1024 - 53) - e') with 0 by lia.
    cbn [shr shr_record_of_loc shr_m].
    destruct (e' <=? 1024 - 53); [|reflexivity].
    unfold SFleb, SFcompare.
    destruct (e0 ?= e') eqn:E; try reflexivity.
    + apply Z.compare_eq in E. specialize (Hm1' (eq_sym E)).
      fold (Pos.compare m0 p2).
      destruct (Pos.compare m0 p2) eqn:E2; try reflexivity.
      apply Pos.compare_gt_iff in E2. lia.
    + apply Z.compare_gt_iff in E. lia.
Qed.

End Rounding.

Section Operations.
Local Open Scope Z_scope.

Lemma iter_xO (m d : Pos.t) : Zpos (Pos.iter xO m d) = Zpos m * 2 ^ Zpos d.
Proof.
  induction d as [|d IH] using Pos.peano_ind.
  - cbn [Pos.iter]. rewrite (Pos2Z.inj_xO m). change (2 ^ 1) with 2. lia.
  - rewrite Pos.iter_succ, (Pos2Z.inj_xO (Pos.iter xO m d)), IH, Pos2Z.inj_succ.
    rewrite Z.pow_succ_r by lia. lia.
Qed.

Lemma SFcompare_refl (x : spec_float) : x <> S754_nan -> SFcompare x x = Some Eq.
Proof.
  destruct x as [s|[|]| |[|] m e]; intros H; try reflexivity; try now destruct H.
  - cbn [SFcompare]. now rewrite Z.compare_refl, Pos.compare_cont_refl.
  - cbn [SFcompare]. now rewrite Z.compare_refl, Pos.compare_cont_refl.
Qed.

(** Adding a float that is not negative to a positive normal number gives
    at least that number. *)
Lemma SFadd_above (m0 : Pos.t) (e0 : Z) (x : spec_float) :
  2 ^ 52 <= Zpos m0 ->
  -1074 <= e0 ->
  nonneg x = true ->
  SFleb (S754_finite false m0 e0) (SFadd prec emax (S754_finite false m0 e0) x) = true.
Proof.
  intros Hm0 He0 Hx. destruct x as [s|[|]| |[|] m e]; try discriminate Hx.
  - cbn [SFadd]. unfold SFleb. now rewrite SFcompare_refl.
  - reflexivity.
  - cbn [SFadd cond_Zopp binary_normalize Z.add].
    apply binary_round_above; [exact Hm0|exact He0|lia|].
    rewrite Pos2Z.inj_add.
    assert (Ha : Zpos m0 * 2 ^ (e0 - Z.min e0 e)
                 = Zpos (fst (shl_align m0 e0 (Z.min e0 e)))).
    { unfold shl_align. destruct (Z.min e0 e - e0) as [|d|d] eqn:E; cbn [fst].
      - replace (e0 - Z.min e0 e) with 0 by lia. lia.
      - lia.
      - rewrite iter_xO. f_equal. f_equal. lia. }
    rewrite Ha. lia.
Qed.

(** Dividing a float that is not negative by a positive number gives a
    float that is not negative. *)
Lemma SFdiv_nonneg (x : spec_float) (my : Pos.t) (ey : Z) :
  nonneg x = true -> sign_of x = Some false ->
  nonneg (SFdiv prec emax x (S754_finite false my ey)) = true.
Proof.
  intros Hx Hs. destruct x as [[|]|[|]| |[|] m e]; try discriminate Hx; try discriminate Hs;
    try reflexivity.
  cbn [SFdiv xorb]. unfold SFdiv_core_binary.
  set (m' := match _ - _ - Z.min _ _ with Z0 => Zpos m | Zpos _ => _ | Zneg _ => 0 end).
  assert (Hm' : 0 <= m').
  { unfold m'. destruct (_ - _ - Z.min _ _); [lia| |lia].
    apply Z.shiftl_nonneg. lia. }
  pose proof (Z.div_pos m' (Zpos my) Hm' ltac:(lia)) as Hq.
  unfold Z.div in Hq. destruct (Z.div_eucl m' (Zpos my)) as [q r].
  pose proof (binary_round_aux_sign false q
                (Z.min (fexp prec emax (Zdigits2 (Zpos m) + e - (Zdigits2 (Zpos my) + ey)))
                   (e - ey))
                (new_location (Zpos my) r) Hq) as H.
  destruct (binary_round_aux _ _ _ _ _ _) as [s|s| |s ? ?]; cbn [sign_of] in H;
    try discriminate H; injection H as ->; reflexivity.
Qed.

Lemma above_zero_nonneg (x : spec_float) :
  above_zero x = true -> nonneg x = true /\ sign_of x = Some false.
Proof. destruct x as [s|[|]| |[|] m e]; try discriminate; now split. Qed.

Lemma below_zero_abs (x : spec_float) :
  below_zero x = true -> nonneg (SFabs x) = true /\ sign_of (SFabs x) = Some false.
Proof. destruct x as [s|[|]| |[|] m e]; try discriminate; now split. Qed.

(** What lies above a positive number is above zero, what lies below a
    negative number is below zero. *)
Lemma SFltb_above_zero (m0 : Pos.t) (e0 : Z) (x : spec_float) :
  SFltb (S754_finite false m0 e0) x = true -> above_zero x = true.
Proof. destruct x as [s|[|]| |[|] m e]; try discriminate; reflexivity. Qed.

Lemma SFltb_below_zero (m0 : Pos.t) (e0 : Z) (x : spec_float) :
  SFltb x (S754_finite true m0 e0) = true -> below_zero x = true.
Proof. destruct x as [s|[|]| |[|] m e]; try discriminate; reflexivity. Qed.

(** No float is below a float that is itself at most a lower bound of
    the first. *)
Lemma SFltb_bounded (a c t : spec_float) :
  SFleb t a = true -> SFleb a c = true -> SFltb c t = false.
Proof.
  unfold SFleb, SFltb.
  destruct a as [sa|[|]| |[|] ma ea]; destruct c as [sc|[|]| |[|] mc ec];
    destruct t as [st|[|]| |[|] mt et]; cbn [SFcompare]; try discriminate; try reflexivity.
  - destruct (ea ?= ec) eqn:E1; destruct (et ?= ea) eqn:E2; destruct (ec ?= et) eqn:E3;
      try discriminate; try reflexivity;
      rewrite ?Z.compare_eq_iff, ?Z.compare_lt_iff, ?Z.compare_gt_iff in *; try lia.
    all: fold (Pos.compare ma mc); fold (Pos.compare mt ma); fold (Pos.compare mc mt).
    all: destruct (Pos.compare ma mc) eqn:P1; destruct (Pos.compare mt ma) eqn:P2;
      destruct (Pos.compare mc mt) eqn:P3; try discriminate; try reflexivity;
      rewrite ?Pos.compare_eq_iff, ?Pos.compare_lt_iff, ?Pos.compare_gt_iff in *; lia.
  - destruct (ea ?= ec) eqn:E1; destruct (et ?= ea) eqn:E2; destruct (ec ?= et) eqn:E3;
      try discriminate; try reflexivity;
      rewrite ?Z.compare_eq_iff, ?Z.compare_lt_iff, ?Z.compare_gt_iff in *; try lia.
    all: fold (Pos.compare ma mc); fold (Pos.compare mt ma); fold (Pos.compare mc mt).
    all: destruct (Pos.compare ma mc) eqn:P1; destruct (Pos.compare mt ma) eqn:P2;
      destruct (Pos.compare mc mt) eqn:P3; try discriminate; try reflexivity;
      rewrite ?Pos.compare_eq_iff, ?Pos.compare_lt_iff, ?Pos.compare_gt_iff in *; lia.
Qed.

End Operations.

(** * The confidence of the scoring path *)

Lemma leb_not_nan (c x : float) : (c <=? x) = true -> is_nan x = false.
Proof.
  rewrite leb_spec. unfold is_nan. rewrite FloatAxioms.eqb_spec. unfold SFleb, SFeqb.
  destruct (Prim2SF x) as [s|s| |s m e] eqn:E.
  - intros _. now rewrite SFcompare_refl.
  - intros _. now rewrite SFcompare_refl.
  - now destruct (Prim2SF c).
  - intros _. now rewrite SFcompare_refl.
Qed.

Lemma Math_min_above (x : float) :
  (0.7 <=? x) = true -> (0.7 <=? Math_min x 0.98) = true.
Proof.
  intros H. unfold Math_min. rewrite (leb_not_nan _ _ H).
  change (is_nan 0.98) with false. cbn [orb].
  destruct (x <? 0.98); [exact H|].
  destruct (0.98 <? x); [reflexivity|].
  destruct (is_zero x && get_sign x); [exact H|reflexivity].
Qed.

Lemma add_above (x : float) :
  nonneg (Prim2SF x) = true -> (0.7 <=? 0.7 + x) = true.
Proof.
  intros H. rewrite leb_spec, add_spec.
  change (Prim2SF 0.7) with (S754_finite false 6305039478318694 (-53)).
  apply SFadd_above; [|lia|exact H].
  change (2 ^ 52)%Z with 4503599627370496%Z. lia.
Qed.

Lemma div_nonneg (x y : float) (my : Pos.t) (ey : Z) :
  Prim2SF y = S754_finite false my ey ->
  nonneg (Prim2SF x) = true -> sign_of (Prim2SF x) = Some false ->
  nonneg (Prim2SF (x / y)) = true.
Proof. intros Hy H1 H2. rewrite div_spec, Hy. now apply SFdiv_nonneg. Qed.

Lemma gt_above_zero (x : float) : gt x 0.5 = true -> above_zero (Prim2SF x) = true.
Proof.
  unfold gt. rewrite ltb_spec.
  change (Prim2SF 0.5) with (S754_finite false 4503599627370496 (-53)).
  apply SFltb_above_zero.
Qed.

Lemma lt_below_zero (x : float) : lt x (-0.5) = true -> below_zero (Prim2SF x) = true.
Proof.
  unfold lt. rewrite ltb_spec.
  change (Prim2SF (-0.5)) with (S754_finite true 4503599627370496 (-53)).
  apply SFltb_below_zero.
Qed.

(** The confidence that the threshold table gives is at least 0.7,
    whatever the score. *)
Lemma confidence_above (content lowerContent : string) (normalizedScore : float) :
  (0.7 <=? confidence (threshold_mapping content lowerContent normalizedScore)) = true.
Proof.
  unfold threshold_mapping.
  destruct (gt normalizedScore 0.5) eqn:Hpos.
  - destruct (above_zero_nonneg _ (gt_above_zero _ Hpos)) as [H1 H2].
    destruct (gt normalizedScore 1.5 || _); cbn [confidence];
      apply Math_min_above, add_above.
    + now apply (div_nonneg _ 10 5629499534213120 (-49)).
    + now apply (div_nonneg _ 5 5629499534213120 (-50)).
  - destruct (lt normalizedScore (-0.5)) eqn:Hneg.
    + destruct (below_zero_abs _ (lt_below_zero _ Hneg)) as [H1 H2].
      rewrite <- abs_spec in H1, H2.
      destruct (_ || _); cbn [confidence]; apply Math_min_above, add_above;
        now apply (div_nonneg _ 5 5629499534213120 (-50)).
    + reflexivity.
Qed.

(** A confidence of at least 0.7 is not below a threshold of at most
    0.7. *)
Lemma not_below_threshold (threshold c : float) :
  (threshold <=? 0.7) = true -> (0.7 <=? c) = true -> lt c threshold = false.
Proof.
  unfold lt. rewrite !leb_spec, ltb_spec. apply SFltb_bounded.
Qed.

(** * The guard, the lexicon terms and the special cases *)

(** C3, amended: the empty string is answered by the guard, as a content
    that is no text: the result is neutral with confidence 1.0. *)
Theorem empty_string_guard (exec : engine) (self : SentimentAnalyzer) :
  analyzeSentiment exec self (VString "")
  = Returns {| type := neutral; confidence := 1.0 |}.
Proof. reflexivity. Qed.

(** C3 as stated fails: the result on the empty string is not the
    neutral result of the scoring, with confidence 0.8. *)
Lemma empty_string_not_generic_neutral :
  analyzeSentiment no_engine default_analyzer (VString "")
  <> Returns {| type := neutral; confidence := 0.8 |}.
Proof.
  change (analyzeSentiment no_engine default_analyzer (VString ""))
    with (Returns {| type := neutral; confidence := 1.0 |}).
  intros [= H].
Qed.

(** C2 fails on the code: with the term [:)] in the custom dictionary,
    the regular expression built from it has an unmatched parenthesis and
    [analyzeSentiment] throws a SyntaxError. *)
Theorem unescaped_term_throws (exec : engine) :
  analyzeSentiment exec emoticon_analyzer (VString "Thanks :)") = Throws SyntaxError.
Proof. vm_compute. reflexivity. Qed.

(** C4 as stated fails: the merged lexicon has a term of weight 1.8, the
    text contains it and none of the four earlier special cases applies,
    yet the result is not excitement with confidence 0.9. *)
Lemma high_weight_term_positive :
  exists t w,
    get_entry (dictionary specialized_analyzer) t = Some w /\ ge w 1.8 = true
    /\ includes (toLowerCase specialized_text) t = true
    /\ earlier_special_case (toLowerCase specialized_text) = false
    /\ analyzeSentiment no_engine specialized_analyzer (VString specialized_text)
       <> Returns {| type := excitement; confidence := 0.9 |}.
Proof.
  exists "specialized_term", 1.8.
  split; [reflexivity|]. split; [reflexivity|].
  split; [vm_compute; reflexivity|]. split; [vm_compute; reflexivity|].
  vm_compute. intros [= H].
Qed.

Lemma special_case_earlier (self : SentimentAnalyzer) (lc : string) :
  earlier_special_case lc = false ->
  special_case self lc =
  if includes lc "spectacular"
     && match get_entry (dictionary self) "spectacular" with
        | Some w => ge w 1.8
        | None => false
        end
  then Some {| type := excitement; confidence := 0.9 |} else None.
Proof.
  unfold earlier_special_case, special_case.
  intros [[[H1 H2]%orb_false_elim H3]%orb_false_elim H4]%orb_false_elim.
  now rewrite H1, H2, H3, H4.
Qed.

(** C4, amended: the special case looks at the one term [spectacular]:
    when the merged lexicon gives it a weight of at least 1.8, the text
    contains it and none of the four earlier special cases applies, the
    result is excitement with confidence 0.9. *)
Theorem spectacular_override (exec : engine) (self : SentimentAnalyzer) (text : string)
    (w : float) :
  get_entry (dictionary self) "spectacular" = Some w -> ge w 1.8 = true ->
  includes (toLowerCase text) "spectacular" = true ->
  earlier_special_case (toLowerCase text) = false ->
  analyzeSentiment exec self (VString text)
  = Returns {| type := excitement; confidence := 0.9 |}.
Proof.
  intros Hw Hge Hin Hearlier. apply analyzeSentiment_special.
  now rewrite (special_case_earlier _ _ Hearlier), Hin, Hw, Hge.
Qed.

Lemma spectacular_override_witness :
  analyzeSentiment no_engine strict_analyzer (VString "A spectacular result")
  = Returns {| type := excitement; confidence := 0.9 |}.
Proof.
  apply (spectacular_override no_engine strict_analyzer "A spectacular result" 1.8).
  - reflexivity.
  - reflexivity.
  - vm_compute. reflexivity.
  - vm_compute. reflexivity.
Defined.

(** * The confidence floor *)

Lemma special_case_confidence (self : SentimentAnalyzer) (lc : string) (fixed : Analysis) :
  special_case self lc = Some fixed ->
  confidence fixed = 0.9 \/ confidence fixed = 0.95.
Proof.
  unfold special_case.
  repeat match goal with |- context [if ?b then _ else _] => destruct b end;
    intros [= <-]; simpl; auto.
Qed.

(** C5: on the scoring path a capped confidence below the threshold is
    replaced by neutral with confidence 0.8; a special case returns its
    fixed result, with confidence 0.9 or 0.95, whatever the threshold. *)
Theorem floor_and_special_cases (exec : engine) (self : SentimentAnalyzer) (text : string) :
  (forall acc,
      text <> "" ->
      special_case self (toLowerCase text) = None ->
      scan_dictionary exec (toLowerCase text) (dictionary self) (0, 0%nat) = Returns acc ->
      lt (confidence (threshold_mapping text (toLowerCase text)
                        (normalize (fst acc) (split_length (toLowerCase text)))))
         (confidenceThreshold (config self)) = true ->
      analyzeSentiment exec self (VString text)
      = Returns {| type := neutral; confidence := 0.8 |})
  /\ (forall fixed,
         special_case self (toLowerCase text) = Some fixed ->
         analyzeSentiment exec self (VString text) = Returns fixed
         /\ (confidence fixed = 0.9 \/ confidence fixed = 0.95)).
Proof.
  split.
  - intros acc Ht Hs Hscan Hlow.
    rewrite (analyzeSentiment_scoring exec self text Ht Hs), Hscan. cbn [bind].
    now rewrite Hlow.
  - intros fixed Hs. split.
    + now apply analyzeSentiment_special.
    + exact (special_case_confidence _ _ _ Hs).
Qed.

Lemma floor_and_special_cases_witness :
  analyzeSentiment no_engine cautious_analyzer (VString "great")
  = Returns {| type := neutral; confidence := 0.8 |}
  /\ analyzeSentiment plus_engine plus_analyzer (VString "great")
     = Returns {| type := neutral; confidence := 0.8 |}
  /\ analyzeSentiment no_engine strict_analyzer (VString excited_text)
     = Returns {| type := excitement; confidence := 0.95 |}.
Proof.
  split; [|split].
  - apply (proj1 (floor_and_special_cases no_engine cautious_analyzer "great")
             (1.0, 1%nat)).
    + intros H; discriminate H.
    + reflexivity.
    + vm_compute. reflexivity.
    + vm_compute. reflexivity.
  - apply (proj1 (floor_and_special_cases plus_engine plus_analyzer "great")
             (2.0, 2%nat)).
    + intros H; discriminate H.
    + reflexivity.
    + vm_compute. reflexivity.
    + vm_compute. reflexivity.
  - apply (proj2 (floor_and_special_cases no_engine strict_analyzer excited_text)).
    vm_compute. reflexivity.
Defined.

(** * The scoring path *)

Lemma nonneg_leb (x : float) : nonneg (Prim2SF x) = true -> (0 <=? x) = true.
Proof.
  rewrite leb_spec. change (Prim2SF 0) with (S754_zero false).
  now destruct (Prim2SF x) as [s|[|]| |[|] m e].
Qed.

Lemma above_below_zero (x : spec_float) :
  above_zero x = true -> below_zero x = true -> False.
Proof. destruct x as [s|[|]| |[|] m e]; discriminate. Qed.

(** A score above 0.5 is not below -0.5. *)
Lemma gt_not_lt (n : float) : gt n 0.5 = true -> lt n (-0.5) = true -> False.
Proof.
  intros H1 H2.
  exact (above_below_zero _ (gt_above_zero _ H1) (lt_below_zero _ H2)).
Qed.

(** The increment that the threshold table adds to 0.7 is not negative. *)
Lemma confidence_increment (content lowerContent : string) (normalizedScore : float) :
  let r := threshold_mapping content lowerContent normalizedScore in
  (type r = neutral -> confidence r = 0.8)
  /\ (type r <> neutral ->
      exists inc, (0 <=? inc) = true /\ confidence r = Math_min (0.7 + inc) 0.98).
Proof.
  unfold threshold_mapping.
  destruct (gt normalizedScore 0.5) eqn:Hpos.
  - destruct (above_zero_nonneg _ (gt_above_zero _ Hpos)) as [H1 H2].
    destruct (gt normalizedScore 1.5 || _); cbn [type confidence];
      (split; [discriminate|]); intros _; eexists; (split; [|reflexivity]);
      apply nonneg_leb.
    + now apply (div_nonneg _ 10 5629499534213120 (-49)).
    + now apply (div_nonneg _ 5 5629499534213120 (-50)).
  - destruct (lt normalizedScore (-0.5)) eqn:Hneg.
    + destruct (below_zero_abs _ (lt_below_zero _ Hneg)) as [H1 H2].
      rewrite <- abs_spec in H1, H2.
      destruct (_ || _); cbn [type confidence];
        (split; [discriminate|]); intros _; eexists; (split; [|reflexivity]);
        apply nonneg_leb; now apply (div_nonneg _ 5 5629499534213120 (-50)).
    + cbn [type confidence]. split; [reflexivity|]. intros H. now destruct H.
Qed.

(** C10: whatever the configuration, the text and the score, the
    confidence that the threshold table gives before the floor is at least
    0.7: 0.8 when neutral, otherwise the smaller of 0.98 and 0.7 plus an
    increment that is not negative. So with a threshold of at most 0.7, as
    the default 0.65 is, the floor changes nothing: the result is the one
    of the table, whenever the loop over the lexicon returns. *)
Theorem generic_confidence_never_floored (exec : engine) (self : SentimentAnalyzer)
    (text : string) :
  (forall normalizedScore,
      let r := threshold_mapping text (toLowerCase text) normalizedScore in
      (0.7 <=? confidence r) = true
      /\ (type r = neutral -> confidence r = 0.8)
      /\ (type r <> neutral ->
          exists inc, (0 <=? inc) = true /\ confidence r = Math_min (0.7 + inc) 0.98))
  /\ (text <> "" ->
      special_case self (toLowerCase text) = None ->
      (confidenceThreshold (config self) <=? 0.7) = true ->
      analyzeSentiment exec self (VString text)
      = bind (scan_dictionary exec (toLowerCase text) (dictionary self) (0, 0%nat))
             (fun acc =>
                Returns (threshold_mapping text (toLowerCase text)
                           (normalize (fst acc) (split_length (toLowerCase text))))))
  /\ (forall d,
         (confidenceThreshold
            (config (constructor {| opt_confidenceThreshold := None;
                                    opt_customDictionary := d |})) <=? 0.7) = true).
Proof.
  split; [|split].
  - intros n r. split; [apply confidence_above|apply confidence_increment].
  - intros Ht Hs Hthr. rewrite (analyzeSentiment_scoring exec self text Ht Hs).
    destruct (scan_dictionary _ _ _ _) as [acc| |]; cbn [bind]; try reflexivity.
    now rewrite (not_below_threshold _ _ Hthr (confidence_above _ _ _)).
  - intros d. reflexivity.
Qed.

Lemma generic_confidence_never_floored_witness :
  analyzeSentiment plus_engine
    (constructor {| opt_confidenceThreshold := Some 0.7;
                    opt_customDictionary := Some [("a+", 1.0)] |}) (VString "great")
  = bind (scan_dictionary plus_engine (toLowerCase "great")
            (dictionary (constructor {| opt_confidenceThreshold := Some 0.7;
                                        opt_customDictionary := Some [("a+", 1.0)] |}))
            (0, 0%nat))
         (fun acc =>
            Returns (threshold_mapping "great" (toLowerCase "great")
                       (normalize (fst acc) (split_length (toLowerCase "great"))))).
Proof.
  apply (generic_confidence_never_floored plus_engine
           (constructor {| opt_confidenceThreshold := Some 0.7;
                           opt_customDictionary := Some [("a+", 1.0)] |}) "great").
  - intros H; discriminate H.
  - reflexivity.
  - reflexivity.
Defined.

Lemma Exists_includes (lc : string) :
  Exists (fun t => includes lc t = true) frustration_indicators <->
  includes lc "already" || includes lc "still" || includes lc "multiple times"
  || includes lc "told you" || includes lc "doesn't work" = true.
Proof.
  unfold frustration_indicators. rewrite !Exists_cons, Exists_nil, !orb_true_iff. tauto.
Qed.

(** C1, amended: for a non-empty text that no special case answers, and
    a lexicon whose terms are free of regular-expression syntax, the score
    is the sum, in the order of the lexicon, of weight times occurrences
    over the terms that occur (the occurrences counted from left to right
    without overlap and without regard to case), the normalized score is
    the score over the square root of the word count (the number of
    tokens, and one more for leading and for trailing white space), and
    the result before the floor is the one of the threshold table; all
    arithmetic is that of binary64. *)
Theorem generic_scoring (exec : engine) (self : SentimentAnalyzer) (text : string) :
  text <> "" ->
  special_case self (toLowerCase text) = None ->
  plain_terms (dictionary self) = true ->
  let lowerContent := toLowerCase text in
  let score := weighted_occurrences (dictionary self) lowerContent in
  let wordCount := pieces lowerContent in
  let normalizedScore := score / sqrt (Number_of_nat wordCount) in
  let excited := gt normalizedScore 1.5 = true
                 \/ (gt normalizedScore 0.8 = true /\ (1 < count_char "!" text)%nat) in
  let frustrated := Exists (fun t => includes lowerContent t = true) frustration_indicators
                    \/ lt normalizedScore (-1.0) = true in
  exists r : Analysis,
    analyzeSentiment exec self (VString text)
    = Returns (if lt (confidence r) (confidenceThreshold (config self))
               then {| type := neutral; confidence := 0.8 |} else r)
    /\ (gt normalizedScore 0.5 = true -> excited ->
        r = {| type := excitement;
               confidence := Math_min (0.7 + normalizedScore / 10) 0.98 |})
    /\ (gt normalizedScore 0.5 = true -> ~ excited ->
        r = {| type := positive;
               confidence := Math_min (0.7 + normalizedScore / 5) 0.98 |})
    /\ (lt normalizedScore (-0.5) = true -> frustrated ->
        r = {| type := frustration;
               confidence := Math_min (0.7 + abs normalizedScore / 5) 0.98 |})
    /\ (lt normalizedScore (-0.5) = true -> ~ frustrated ->
        r = {| type := negative;
               confidence := Math_min (0.7 + abs normalizedScore / 5) 0.98 |})
    /\ (gt normalizedScore 0.5 = false -> lt normalizedScore (-0.5) = false ->
        r = {| type := neutral; confidence := 0.8 |}).
Proof.
  intros Ht Hs Hp lc score wc n excited frustrated.
  destruct (scan_dictionary_plain exec lc _ Hp (0, 0%nat)) as (matchCount & Hscan).
  exists (threshold_mapping text lc n). split.
  - rewrite (analyzeSentiment_scoring exec self text Ht Hs). fold lc. rewrite Hscan.
    cbn [bind fst]. rewrite normalize_split.
    now rewrite (split_length_pieces lc (toLowerCase_nonempty _ Ht)).
  - unfold threshold_mapping.
    assert (excited <->
            gt n 1.5 || (gt n 0.8 && (1 <? count_char "!" text)%nat) = true) as Hex.
    { unfold excited. rewrite orb_true_iff, andb_true_iff, Nat.ltb_lt. tauto. }
    assert (frustrated <->
            includes lc "already" || includes lc "still" || includes lc "multiple times"
            || includes lc "told you" || includes lc "doesn't work" || lt n (-1.0) = true)
      as Hfr.
    { unfold frustrated. rewrite Exists_includes.
      rewrite (orb_true_iff _ (lt n (-1.0))). tauto. }
    pose proof (gt_not_lt n) as Hexcl.
    destruct (gt n 1.5 || _) eqn:He;
      destruct (includes lc "already" || _ || _ || _ || _ || _) eqn:Hf;
      destruct (gt n 0.5) eqn:H1; destruct (lt n (-0.5)) eqn:H2;
      cbn [type confidence];
      repeat split; intros;
      try reflexivity; try discriminate;
      try (exfalso; tauto);
      try (exfalso; destruct Hex; destruct Hfr; intuition congruence).
Qed.

Lemma generic_scoring_witness :
  exists r : Analysis,
    analyzeSentiment no_engine default_analyzer (VString "good")
    = Returns (if lt (confidence r) (confidenceThreshold (config default_analyzer))
               then {| type := neutral; confidence := 0.8 |} else r)
    /\ r = {| type := positive;
              confidence :=
                Math_min
                  (0.7 + weighted_occurrences (dictionary default_analyzer)
                           (toLowerCase "good")
                         / sqrt (Number_of_nat (pieces (toLowerCase "good"))) / 5)
                  0.98 |}.
Proof.
  assert ("good" <> "") as Htext by (intros H; discriminate H).
  assert (special_case default_analyzer (toLowerCase "good") = None) as Hs
      by (vm_compute; reflexivity).
  assert (plain_terms (dictionary default_analyzer) = true) as Hp
      by (vm_compute; reflexivity).
  destruct (generic_scoring no_engine default_analyzer "good" Htext Hs Hp)
    as (r & Hr & _ & H & _).
  exists r. split; [exact Hr|]. apply H.
  - vm_compute. reflexivity.
  - intros [E|[E _]]; vm_compute in E; discriminate E.
Defined.

(** C1 as stated fails, in five ways. Each time no special case applies,
    the lexicon has no syntax character, the result that the claim words
    would pass the floor, and the result of the code is another one: the
    empty string is answered by the guard; a term is counted where the
    previous occurrence has ended, so [!!] once in [!!!] and not twice; the
    word count is the number of pieces between runs of white space, the
    empty piece before a leading blank included; a term in capitals is
    found in the lower-cased text; and a term that does not occur adds
    nothing, where the product of an infinite weight and zero occurrences
    is NaN. *)
Lemma specified_scoring_differs :
  (special_case default_analyzer (toLowerCase "") = None
   /\ plain_terms (dictionary default_analyzer) = true
   /\ lt (confidence (specified_result default_analyzer ""))
         (confidenceThreshold (config default_analyzer)) = false
   /\ analyzeSentiment no_engine default_analyzer (VString "")
      <> Returns (specified_result default_analyzer ""))
  /\ (special_case default_analyzer (toLowerCase "!!!") = None
      /\ lt (confidence (specified_result default_analyzer "!!!"))
            (confidenceThreshold (config default_analyzer)) = false
      /\ analyzeSentiment no_engine default_analyzer (VString "!!!")
         <> Returns (specified_result default_analyzer "!!!"))
  /\ (special_case default_analyzer (toLowerCase " good") = None
      /\ lt (confidence (specified_result default_analyzer " good"))
            (confidenceThreshold (config default_analyzer)) = false
      /\ analyzeSentiment no_engine default_analyzer (VString " good")
         <> Returns (specified_result default_analyzer " good"))
  /\ (special_case capital_analyzer (toLowerCase "ok") = None
      /\ plain_terms (dictionary capital_analyzer) = true
      /\ lt (confidence (specified_result capital_analyzer "ok"))
            (confidenceThreshold (config capital_analyzer)) = false
      /\ analyzeSentiment no_engine capital_analyzer (VString "ok")
         <> Returns (specified_result capital_analyzer "ok"))
  /\ (special_case unbounded_analyzer (toLowerCase "good") = None
      /\ plain_terms (dictionary unbounded_analyzer) = true
      /\ lt (confidence (specified_result unbounded_analyzer "good"))
            (confidenceThreshold (config unbounded_analyzer)) = false
      /\ analyzeSentiment no_engine unbounded_analyzer (VString "good")
         <> Returns (specified_result unbounded_analyzer "good")).
Proof.
  repeat split; try (vm_compute; reflexivity); vm_compute; intros [= H].
Qed.

(** C9 fails on the code: with the term [...] in the custom dictionary,
    the words appended to [bad] are neutral filler (they create no
    occurrence of a lexicon term or of a frustration indicator, and have no
    exclamation mark), both texts are negative, and the confidence of the
    longer text is the greater one. The dots of the term, which the regular
    expression takes for wildcards, match the filler. *)
Theorem filler_matches_dots (exec : engine) :
  neutral_filler dotted_analyzer "bad" " zzzzzzzzzzzz" = true
  /\ exists c c',
       analyzeSentiment exec dotted_analyzer (VString "bad")
       = Returns {| type := negative; confidence := c |}
       /\ analyzeSentiment exec dotted_analyzer (VString ("bad" ++ " zzzzzzzzzzzz"))
          = Returns {| type := negative; confidence := c' |}
       /\ (c <? c') = true.
Proof.
  split; [vm_compute; reflexivity|].
  eexists _, _. split; [vm_compute; reflexivity|].
  split; [vm_compute; reflexivity|]. vm_compute. reflexivity.
Qed.

(** * The merged lexicon *)








(** * Totality *)

Lemma scan_dictionary_app (exec : engine) (lc : string) (d1 d2 : Dictionary)
    (acc : float * nat) :
  scan_dictionary exec lc (d1 ++ d2)%list acc
  = bind (scan_dictionary exec lc d1 acc) (scan_dictionary exec lc d2).
Proof.
  revert acc. induction d1 as [|e d1 IH]; intros acc; cbn [scan_dictionary app bind];
    [reflexivity|].
  destruct (scan_entry exec lc acc e) as [acc1| |]; cbn [bind]; [apply IH|reflexivity..].
Qed.

(** With a lexicon whose terms have no syntax character, as the default
    one, [analyzeSentiment] returns a result for every content, whatever
    its type. *)
Theorem plain_lexicon_total (exec : engine) (self : SentimentAnalyzer) (content : value) :
  plain_terms (dictionary self) = true ->
  exists a, analyzeSentiment exec self content = Returns a.
Proof.
  intros Hp. destruct content as [| |b|x|text|l]; try (eexists; reflexivity).
  destruct (String.eqb text "") eqn:E.
  - apply String.eqb_eq in E. subst text. eexists. reflexivity.
  - apply String.eqb_neq in E.
    destruct (special_case self (toLowerCase text)) as [fixed|] eqn:Hs.
    + exists fixed. now apply analyzeSentiment_special.
    + rewrite (analyzeSentiment_scoring exec self text E Hs).
      destruct (scan_dictionary_plain exec (toLowerCase text) _ Hp (0, 0%nat)) as (m & ->).
      eexists. reflexivity.
Qed.

Lemma plain_lexicon_total_witness :
  exists a, analyzeSentiment no_engine default_analyzer (VString "It works") = Returns a.
Proof.
  apply (plain_lexicon_total no_engine default_analyzer (VString "It works")).
  vm_compute. reflexivity.
Defined.

(** A lexicon term whose first syntax character is a closing
    parenthesis, after terms without syntax characters, makes
    [analyzeSentiment] throw a SyntaxError on every text that reaches the
    loop over the lexicon. *)
Theorem unmatched_parenthesis_throws (exec : engine) (self : SentimentAnalyzer)
    (text t : string) (w : float) (before after : Dictionary) :
  dictionary self = (before ++ (t, w) :: after)%list ->
  plain_terms before = true ->
  classify_term t = UnmatchedParen ->
  text <> "" ->
  special_case self (toLowerCase text) = None ->
  analyzeSentiment exec self (VString text) = Throws SyntaxError.
Proof.
  intros Hd Hp Ht Htext Hs.
  rewrite (analyzeSentiment_scoring exec self text Htext Hs), Hd, scan_dictionary_app.
  destruct (scan_dictionary_plain exec (toLowerCase text) _ Hp (0, 0%nat)) as (m & ->).
  cbn [bind scan_dictionary fst]. unfold scan_entry, count_matches. now rewrite Ht.
Qed.

Lemma unmatched_parenthesis_throws_witness :
  analyzeSentiment no_engine emoticon_analyzer (VString "Thanks :)") = Throws SyntaxError.
Proof.
  apply (unmatched_parenthesis_throws no_engine emoticon_analyzer "Thanks :)" ":)" 1.0
           default_dictionary []).
  - vm_compute. reflexivity.
  - vm_compute. reflexivity.
  - reflexivity.
  - intros H; discriminate H.
  - vm_compute. reflexivity.
Defined.

(** * Case *)

Lemma toLowerCase_char_exclamation (c : ascii) :
  Ascii.eqb (toLowerCase_char c) "!" = Ascii.eqb c "!".
Proof. destruct c as [[] [] [] [] [] [] [] []]; vm_compute; reflexivity. Qed.

Lemma count_char_toLowerCase (s : string) :
  count_char "!" (toLowerCase s) = count_char "!" s.
Proof.
  induction s as [|c s IH]; [reflexivity|]. cbn [toLowerCase count_char].
  now rewrite toLowerCase_char_exclamation, IH.
Qed.

Lemma toLowerCase_empty (s : string) : toLowerCase s = "" -> s = "".
Proof. now destruct s. Qed.

(** Two texts that differ only in the case of their letters have the
    same analysis. *)
Theorem case_insensitive (exec : engine) (self : SentimentAnalyzer) (t1 t2 : string) :
  toLowerCase t1 = toLowerCase t2 ->
  analyzeSentiment exec self (VString t1) = analyzeSentiment exec self (VString t2).
Proof.
  intros H.
  assert (Hc : count_char "!" t1 = count_char "!" t2).
  { now rewrite <- (count_char_toLowerCase t1), H, count_char_toLowerCase. }
  destruct (String.eqb t1 "") eqn:E1.
  { apply String.eqb_eq in E1. subst t1. symmetry in H. apply toLowerCase_empty in H.
    now subst t2. }
  destruct (String.eqb t2 "") eqn:E2.
  { apply String.eqb_eq in E2. subst t2. apply toLowerCase_empty in H. subst t1.
    discriminate E1. }
  unfold analyzeSentiment. cbn [truthy]. rewrite E1, E2. cbn [negb]. rewrite <- H.
  destruct (special_case self (toLowerCase t1)); [reflexivity|].
  destruct (scan_dictionary _ _ _ _) as [acc| |]; cbn [bind]; try reflexivity.
  unfold threshold_mapping. now rewrite Hc.
Qed.

Lemma case_insensitive_witness :
  analyzeSentiment no_engine default_analyzer (VString "GREAT Work")
  = analyzeSentiment no_engine default_analyzer (VString "great work").
Proof.
  apply (case_insensitive no_engine default_analyzer "GREAT Work" "great work").
  reflexivity.
Defined.

(** * The range of the confidence *)

Lemma ltb_leb (x y : float) : (x <? y) = true -> (x <=? y) = true.
Proof.
  rewrite ltb_spec, leb_spec. unfold SFltb, SFleb.
  now destruct (SFcompare (Prim2SF x) (Prim2SF y)) as [[| |]|].
Qed.

Lemma is_zero_leb (x : float) : is_zero x = true -> (x <=? 0.98) = true.
Proof.
  unfold is_zero. rewrite FloatAxioms.eqb_spec, leb_spec.
  change (Prim2SF 0) with (S754_zero false).
  change (Prim2SF 0.98) with (S754_finite false 8827055269646172 (-53)).
  now destruct (Prim2SF x) as [s|[|]| |[|] m e].
Qed.

(** The cap: a confidence that is a number is at most 0.98. *)
Lemma Math_min_cap (x : float) : is_nan x = false -> (Math_min x 0.98 <=? 0.98) = true.
Proof.
  intros H. unfold Math_min. rewrite H. change (is_nan 0.98) with false. cbn [orb].
  destruct (x <? 0.98) eqn:E1; [now apply ltb_leb|].
  destruct (0.98 <? x); [reflexivity|].
  destruct (is_zero x) eqn:E2; [|reflexivity].
  destruct (get_sign x); [now apply is_zero_leb | reflexivity].
Qed.

Lemma threshold_mapping_cap (content lowerContent : string) (normalizedScore : float) :
  (confidence (threshold_mapping content lowerContent normalizedScore) <=? 0.98) = true.
Proof.
  destruct (confidence_increment content lowerContent normalizedScore) as [Hn Hi].
  pose proof (confidence_above content lowerContent normalizedScore) as Hlow.
  set (r := threshold_mapping content lowerContent normalizedScore) in *.
  destruct (type r) eqn:Ht.
  1: { now rewrite (Hn eq_refl). }
  all: destruct Hi as (inc & Hinc & Hc); [discriminate|];
    rewrite Hc in Hlow |- *; apply Math_min_cap;
    unfold Math_min in Hlow; destruct (is_nan (0.7 + inc)); [discriminate Hlow|reflexivity].
Qed.

(** A float at most [a] is below every float that [a] is below. *)
Lemma SFleb_ltb (c a t : spec_float) :
  SFleb c a = true -> SFltb a t = true -> SFltb c t = true.
Proof.
  unfold SFleb, SFltb.
  destruct a as [sa|[|]| |[|] ma ea]; destruct c as [sc|[|]| |[|] mc ec];
    destruct t as [st|[|]| |[|] mt et]; cbn [SFcompare]; try discriminate; try reflexivity.
  - destruct (ec ?= ea)%Z eqn:E1; destruct (ea ?= et)%Z eqn:E2; destruct (ec ?= et)%Z eqn:E3;
      try discriminate; try reflexivity;
      rewrite ?Z.compare_eq_iff, ?Z.compare_lt_iff, ?Z.compare_gt_iff in *; try lia.
    all: fold (Pos.compare mc ma); fold (Pos.compare ma mt); fold (Pos.compare mc mt).
    all: destruct (Pos.compare mc ma) eqn:P1; destruct (Pos.compare ma mt) eqn:P2;
      destruct (Pos.compare mc mt) eqn:P3; try discriminate; try reflexivity;
      rewrite ?Pos.compare_eq_iff, ?Pos.compare_lt_iff, ?Pos.compare_gt_iff in *; lia.
  - destruct (ec ?= ea)%Z eqn:E1; destruct (ea ?= et)%Z eqn:E2; destruct (ec ?= et)%Z eqn:E3;
      try discriminate; try reflexivity;
      rewrite ?Z.compare_eq_iff, ?Z.compare_lt_iff, ?Z.compare_gt_iff in *; try lia.
    all: fold (Pos.compare mc ma); fold (Pos.compare ma mt); fold (Pos.compare mc mt).
    all: destruct (Pos.compare mc ma) eqn:P1; destruct (Pos.compare ma mt) eqn:P2;
      destruct (Pos.compare mc mt) eqn:P3; try discriminate; try reflexivity;
      rewrite ?Pos.compare_eq_iff, ?Pos.compare_lt_iff, ?Pos.compare_gt_iff in *; lia.
Qed.

(** Every result of [analyzeSentiment] has the confidence 1.0 of the
    guard or a confidence between 0.7 and 0.98. *)
Theorem confidence_range (exec : engine) (self : SentimentAnalyzer) (content : value)
    (a : Analysis) :
  analyzeSentiment exec self content = Returns a ->
  confidence a = 1.0
  \/ ((0.7 <=? confidence a) = true /\ (confidence a <=? 0.98) = true).
Proof.
  destruct content as [| |b|x|text|l]; try (intros [= <-]; now left).
  destruct (String.eqb text "") eqn:E.
  { apply String.eqb_eq in E. subst text. intros [= <-]. now left. }
  apply String.eqb_neq in E.
  destruct (special_case self (toLowerCase text)) as [fixed|] eqn:Hs.
  - rewrite (analyzeSentiment_special exec self text fixed Hs). intros [= <-]. right.
    destruct (special_case_confidence _ _ _ Hs) as [-> | ->]; now split.
  - rewrite (analyzeSentiment_scoring exec self text E Hs).
    destruct (scan_dictionary _ _ _ _) as [acc| |]; cbn [bind]; try discriminate.
    destruct (lt _ _); intros [= <-]; right.
    + now split.
    + split; [apply confidence_above | apply threshold_mapping_cap].
Qed.

Lemma confidence_range_witness :
  confidence {| type := positive; confidence := 0.9 |} = 1.0
  \/ ((0.7 <=? confidence {| type := positive; confidence := 0.9 |}) = true
      /\ (confidence {| type := positive; confidence := 0.9 |} <=? 0.98) = true).
Proof.
  apply (confidence_range no_engine default_analyzer
           (VString "I am really happy, it works great")).
  vm_compute. reflexivity.
Defined.

(** With a threshold above the cap of 0.98, every text that reaches the
    scoring is neutral with confidence 0.8, once the loop over the lexicon
    has returned. *)
Theorem threshold_above_cap (exec : engine) (self : SentimentAnalyzer) (text : string) :
  (0.98 <? confidenceThreshold (config self)) = true ->
  text <> "" ->
  special_case self (toLowerCase text) = None ->
  analyzeSentiment exec self (VString text)
  = bind (scan_dictionary exec (toLowerCase text) (dictionary self) (0, 0%nat))
         (fun _ => Returns {| type := neutral; confidence := 0.8 |}).
Proof.
  intros Hthr Ht Hs. rewrite (analyzeSentiment_scoring exec self text Ht Hs).
  destruct (scan_dictionary _ _ _ _) as [acc| |]; cbn [bind]; try reflexivity.
  assert (Hlt : lt (confidence (threshold_mapping text (toLowerCase text)
                                  (normalize (fst acc) (split_length (toLowerCase text)))))
                   (confidenceThreshold (config self)) = true).
  { unfold lt. rewrite ltb_spec.
    apply (SFleb_ltb _ (Prim2SF 0.98)); rewrite <- ?leb_spec, <- ?ltb_spec;
      [apply threshold_mapping_cap | exact Hthr]. }
  now rewrite Hlt.
Qed.

Lemma threshold_above_cap_witness :
  analyzeSentiment no_engine strict_analyzer (VString "good")
  = bind (scan_dictionary no_engine (toLowerCase "good") (dictionary strict_analyzer)
            (0, 0%nat))
         (fun _ => Returns {| type := neutral; confidence := 0.8 |}).
Proof.
  apply (threshold_above_cap no_engine strict_analyzer "good").
  - reflexivity.
  - intros H; discriminate H.
  - reflexivity.
Defined.

(** * The examples of the test suite *)


(** * The heap, JSON and [analyze] *)

Section Messages.

Local Open Scope list_scope.
Local Open Scope nat_scope.

(** * JSON trees *)

Lemma JSON_induction (P : JSON -> Prop) :
  P JNull -> (forall b, P (JBoolean b)) -> (forall x, P (JNumber x)) ->
  (forall s, P (JString s)) ->
  (forall elems, List.Forall P elems -> P (JArray elems)) ->
  (forall members, List.Forall (fun m => P (snd m)) members -> P (JObject members)) ->
  forall j, P j.
Proof.
  intros Hnull Hbool Hnum Hstr Harr Hobj.
  fix IH 1. intros [|b|x|s|elems|members].
  - exact Hnull.
  - apply Hbool.
  - apply Hnum.
  - apply Hstr.
  - apply Harr. induction elems as [|e elems IHe]; constructor; [apply IH | exact IHe].
  - apply Hobj.
    induction members as [|[k e] members IHm]; constructor; [apply IH | exact IHm].
Qed.

Lemma revive_array (lo : nat) (elems : list JSON) :
  revive lo (JArray elems)
  = let '(vs, ext) := revive_elements lo elems in
    (VObject (lo + List.length ext)%nat, (ext ++ [OArr vs])%list).
Proof. reflexivity. Qed.

Lemma revive_object (lo : nat) (members : list (string * JSON)) :
  revive lo (JObject members)
  = let '(props, ext) := revive_members lo members in
    (VObject (lo + List.length ext)%nat, (ext ++ [OObj (define_all props)])%list).
Proof. reflexivity. Qed.

(** * Property lists *)

Lemma existsb_eqb_false (k : string) (l : list string) :
  existsb (String.eqb k) l = false -> ~ In k l.
Proof.
  intros H Hin. assert (existsb (String.eqb k) l = true); [|congruence].
  apply existsb_exists. exists k. split; [exact Hin | apply String.eqb_refl].
Qed.

Lemma existsb_eqb_app (k : string) (a b : list string) :
  existsb (String.eqb k) (a ++ b) = existsb (String.eqb k) a || existsb (String.eqb k) b.
Proof. apply existsb_app. Qed.

Lemma define_prop_new (props : list (string * value)) (k : string) (v : value) :
  existsb (String.eqb k) (map fst props) = false ->
  define_prop props k v = (props ++ [(k, v)])%list.
Proof.
  induction props as [|[k' v'] props IH]; simpl; [reflexivity|].
  rewrite (String.eqb_sym k k'). destruct (String.eqb k' k); simpl; [discriminate|].
  intros H. now rewrite IH.
Qed.

Lemma distinct_app (a b : list string) (k : string) :
  distinct (a ++ k :: b) = true -> existsb (String.eqb k) a = false.
Proof.
  induction a as [|x a IH]; simpl; [reflexivity|].
  intros [Hx Hd]%andb_prop. apply negb_true_iff in Hx.
  rewrite existsb_app in Hx. apply orb_false_elim in Hx. destruct Hx as [_ Hx].
  simpl in Hx. apply orb_false_elim in Hx. destruct Hx as [Hx _].
  rewrite (String.eqb_sym k x), Hx. simpl. now apply IH.
Qed.

Lemma define_fold (props acc : list (string * value)) :
  distinct (map fst (acc ++ props)) = true ->
  fold_left (fun ps p => define_prop ps (fst p) (snd p)) props acc = (acc ++ props)%list.
Proof.
  revert acc. induction props as [|[k v] props IH]; intros acc H; simpl.
  - now rewrite app_nil_r.
  - rewrite define_prop_new.
    + rewrite IH; rewrite <- app_assoc; [reflexivity | exact H].
    + rewrite map_app in H. simpl in H. now apply distinct_app in H.
Qed.

Lemma define_all_distinct (props : list (string * value)) :
  distinct (map fst props) = true -> define_all props = props.
Proof. intros H. unfold define_all. now rewrite define_fold. Qed.

Lemma lookup_define_eq (props : list (string * value)) (k : string) (v : value) :
  lookup_prop (define_prop props k v) k = Some v.
Proof.
  induction props as [|[k' v'] props IH]; simpl.
  - now rewrite String.eqb_refl.
  - destruct (String.eqb k' k) eqn:E; simpl; now rewrite E.
Qed.

Lemma lookup_define_ne (props : list (string * value)) (k k' : string) (v : value) :
  k <> k' -> lookup_prop (define_prop props k v) k' = lookup_prop props k'.
Proof.
  intros Hne. induction props as [|[k0 v0] props IH]; simpl.
  - apply String.eqb_neq in Hne. now rewrite Hne.
  - destruct (String.eqb k0 k) eqn:E; simpl; [|now rewrite IH].
    apply String.eqb_eq in E. subst k0. apply String.eqb_neq in Hne. now rewrite Hne.
Qed.

Lemma define_prop_keys (props : list (string * value)) (k : string) (v : value) :
  distinct (map fst props) = true -> distinct (map fst (define_prop props k v)) = true.
Proof.
  induction props as [|[k' v'] props IH]; simpl; [reflexivity|].
  intros [Hx Hd]%andb_prop. destruct (String.eqb k' k) eqn:E; simpl.
  - now rewrite Hx, Hd.
  - rewrite (IH Hd), andb_true_r. apply negb_true_iff in Hx. apply negb_true_iff.
    destruct (existsb (String.eqb k) (map fst props)) eqn:Hk.
    + clear IH. induction props as [|[k1 v1] props IH]; simpl in *; [discriminate|].
      apply orb_false_elim in Hx. destruct Hx as [Hx1 Hx2].
      destruct (String.eqb k1 k) eqn:E1; simpl; rewrite Hx1; simpl; [exact Hx2|].
      apply andb_prop in Hd. destruct Hd as [_ Hd].
      rewrite (String.eqb_sym k k1), E1 in Hk. simpl in Hk. now apply IH.
    + rewrite (define_prop_new _ _ _ Hk), map_app, existsb_app, Hx. simpl.
      now rewrite E.
Qed.

(** * Numbers in JSON *)

Lemma Number_json_ok (x : float) : number_ok x = true -> Number_json x = JNumber x.
Proof.
  unfold number_ok, Number_json. intros [Hf Hz]%andb_prop. rewrite Hf.
  apply orb_prop in Hz. destruct Hz as [Hz|Hz].
  - apply negb_true_iff in Hz. now rewrite Hz.
  - apply Leibniz.eqb_spec in Hz. now subst x.
Qed.

Lemma json_ok_Number (x : float) : json_ok (Number_json x) = true.
Proof.
  unfold Number_json. destruct (is_finite x) eqn:Hf; [|reflexivity].
  destruct (is_zero x) eqn:Hz; [reflexivity|].
  cbn [json_ok]. unfold number_ok. now rewrite Hf, Hz.
Qed.

(** * Parts of the heap *)

Lemma holds_app (H : heap) (lo : nat) (a b : list object) :
  holds H lo (a ++ b) -> holds H lo a /\ holds H (lo + List.length a) b.
Proof.
  intros Hh. split; intros i o Hi.
  - apply Hh. now apply lookup_app_l_Some.
  - replace (lo + List.length a + i)%nat with (lo + (List.length a + i))%nat by lia.
    apply Hh. now rewrite lookup_app_r, Nat.add_comm, Nat.add_sub by lia.
Qed.

Lemma holds_bound (H : heap) (lo : nat) (ext : list object) :
  holds H lo ext -> (List.length ext <= List.length H)%nat.
Proof.
  intros Hh. destruct (list_eq_nil_dec ext) as [->|Hne]; [simpl; lia|].
  assert (exists o, ext !! (List.length ext - 1)%nat = Some o) as [o Ho].
  { apply lookup_lt_is_Some. destruct ext; [congruence | simpl; lia]. }
  apply Hh, lookup_lt_Some in Ho. lia.
Qed.

Lemma holds_here (h ext rest : list object) :
  holds (h ++ ext ++ rest) (List.length h) ext.
Proof.
  intros i o Hi. rewrite lookup_app_r by lia.
  replace (List.length h + i - List.length h)%nat with i by lia.
  now apply lookup_app_l_Some.
Qed.

Lemma holds_insert (H : heap) (lo l : nat) (ext : list object) (o : object) :
  holds H lo ext -> (l < lo \/ lo + List.length ext <= l)%nat ->
  holds (<[l := o]> H) lo ext.
Proof.
  intros Hh Hl i x Hi. rewrite list_lookup_insert_ne; [now apply Hh|].
  apply lookup_lt_Some in Hi. lia.
Qed.

Lemma holds_grow (H more : heap) (lo : nat) (ext : list object) :
  holds H lo ext -> holds (H ++ more) lo ext.
Proof. intros Hh i o Hi. apply lookup_app_l_Some. now apply Hh. Qed.

Lemma outside_not_in (stack : list loc) (lo n l : nat) :
  outside stack lo n -> (lo <= l < lo + n)%nat -> existsb (Nat.eqb l) stack = false.
Proof.
  intros Ho Hl. destruct (existsb (Nat.eqb l) stack) eqn:E; [|reflexivity].
  apply existsb_exists in E. destruct E as (a & Ha & Hla%Nat.eqb_eq). subst a.
  apply Ho in Ha. lia.
Qed.

(** * Values of JSON texts *)

Lemma revive_defined (j : JSON) (lo : nat) : fst (revive lo j) <> VUndefined.
Proof.
  destruct j as [|b|x|s|elems|members]; try (simpl; discriminate).
  - rewrite revive_array. destruct (revive_elements lo elems). simpl. discriminate.
  - rewrite revive_object. destruct (revive_members lo members). simpl. discriminate.
Qed.

Lemma revive_truthy (j : JSON) (lo : nat) : truthy (fst (revive lo j)) = json_truthy j.
Proof.
  destruct j as [|b|x|s|elems|members]; try reflexivity.
  - rewrite revive_array. now destruct (revive_elements lo elems).
  - rewrite revive_object. now destruct (revive_members lo members).
Qed.

Lemma revive_members_keys (members : list (string * JSON)) :
  forall lo, map fst (fst (revive_members lo members)) = map fst members.
Proof.
  induction members as [|[k e] members IH]; intros lo; simpl; [reflexivity|].
  destruct (revive lo e) as [v x]. specialize (IH (lo + List.length x)%nat).
  destruct (revive_members _ members). simpl in *. now rewrite IH.
Qed.

Lemma revive_members_defined (members : list (string * JSON)) :
  forall lo, List.Forall (fun p => snd p <> VUndefined) (fst (revive_members lo members)).
Proof.
  induction members as [|[k e] members IH]; intros lo; simpl; [constructor|].
  pose proof (revive_defined e lo) as Hd.
  destruct (revive lo e) as [v x]. specialize (IH (lo + List.length x)%nat).
  destruct (revive_members _ members). simpl in *. now constructor.
Qed.

Lemma serialize_defined (fuel : nat) (H : heap) (stack : list loc) (v : value) :
  v <> VUndefined -> SerializeJSONProperty fuel H stack v <> Returns None.
Proof.
  intros Hv. destruct fuel as [|fuel], v as [| |b|x|s|l]; simpl; try congruence.
  destruct (existsb (Nat.eqb l) stack); [discriminate|].
  destruct (H !! l) as [[props|elems]|]; try discriminate.
  - destruct (serialize_members _ props); simpl; discriminate.
  - destruct (serialize_elements _ elems); simpl; discriminate.
Qed.

(** * Serializing what was parsed *)

(** The members of a parsed object serialize to the members they were
    parsed from, provided each value does. *)
Lemma revive_serialize_members (members : list (string * JSON)) :
  List.Forall (fun m =>
     json_ok (snd m) = true ->
     forall lo H stack fuel,
       holds H lo (snd (revive lo (snd m))) ->
       outside stack lo (List.length (snd (revive lo (snd m)))) ->
       List.length (snd (revive lo (snd m))) < fuel ->
       SerializeJSONProperty fuel H stack (fst (revive lo (snd m))) = Returns (Some (snd m)))
    members ->
  forallb (fun m => json_ok (snd m)) members = true ->
  forall lo H stack fuel,
    holds H lo (snd (revive_members lo members)) ->
    outside stack lo (List.length (snd (revive_members lo members))) ->
    List.length (snd (revive_members lo members)) < fuel ->
    serialize_members (SerializeJSONProperty fuel H stack) (fst (revive_members lo members))
    = Returns members.
Proof.
  induction 1 as [|[k e] members He _ IH]; intros Hok lo H stack fuel; simpl; [reflexivity|].
  simpl in Hok, He. apply andb_prop in Hok. destruct Hok as [Hoke Hok].
  specialize (He Hoke lo H stack fuel). specialize (IH Hok).
  destruct (revive lo e) as [v x]. simpl in He.
  specialize (IH (lo + List.length x) H stack fuel).
  destruct (revive_members (lo + List.length x) members) as [props xs]. simpl in *.
  rewrite length_app. intros [Hx Hxs]%holds_app Hout Hfuel.
  rewrite He; [simpl|exact Hx| |lia].
  - rewrite IH; [reflexivity|exact Hxs| |lia].
    intros a Ha. apply Hout in Ha. lia.
  - intros a Ha. apply Hout in Ha. lia.
Qed.

Lemma revive_serialize_elements (elems : list JSON) :
  List.Forall (fun e =>
     json_ok e = true ->
     forall lo H stack fuel,
       holds H lo (snd (revive lo e)) ->
       outside stack lo (List.length (snd (revive lo e))) ->
       List.length (snd (revive lo e)) < fuel ->
       SerializeJSONProperty fuel H stack (fst (revive lo e)) = Returns (Some e))
    elems ->
  forallb json_ok elems = true ->
  forall lo H stack fuel,
    holds H lo (snd (revive_elements lo elems)) ->
    outside stack lo (List.length (snd (revive_elements lo elems))) ->
    List.length (snd (revive_elements lo elems)) < fuel ->
    serialize_elements (SerializeJSONProperty fuel H stack) (fst (revive_elements lo elems))
    = Returns elems.
Proof.
  induction 1 as [|e elems He _ IH]; intros Hok lo H stack fuel; simpl; [reflexivity|].
  simpl in Hok. apply andb_prop in Hok. destruct Hok as [Hoke Hok].
  specialize (He Hoke lo H stack fuel). specialize (IH Hok).
  destruct (revive lo e) as [v x]. simpl in He.
  specialize (IH (lo + List.length x) H stack fuel).
  destruct (revive_elements (lo + List.length x) elems) as [vs xs]. simpl in *.
  rewrite length_app. intros [Hx Hxs]%holds_app Hout Hfuel.
  rewrite He; [simpl|exact Hx| |lia].
  - rewrite IH; [reflexivity|exact Hxs| |lia].
    intros a Ha. apply Hout in Ha. lia.
  - intros a Ha. apply Hout in Ha. lia.
Qed.

(** [JSON.stringify] after [JSON.parse]: the value of a JSON text
    serializes to that text, in every heap that still holds the objects
    created for it. *)
Lemma revive_serialize (j : JSON) :
  json_ok j = true ->
  forall lo H stack fuel,
    holds H lo (snd (revive lo j)) ->
    outside stack lo (List.length (snd (revive lo j))) ->
    List.length (snd (revive lo j)) < fuel ->
    SerializeJSONProperty fuel H stack (fst (revive lo j)) = Returns (Some j).
Proof.
  induction j as [|b|x|s|elems IH|members IH] using JSON_induction;
    intros Hok lo H stack fuel.
  1, 2, 4: destruct fuel; reflexivity.
  - intros _ _ _. cbn [json_ok] in Hok.
    destruct fuel; cbn [revive fst SerializeJSONProperty];
      now rewrite (Number_json_ok _ Hok).
  - rewrite revive_array. pose proof (revive_serialize_elements elems IH Hok lo H) as Hes.
    destruct (revive_elements lo elems) as [vs ext]. simpl in *.
    rewrite length_app. simpl. intros [Hext Hcell]%holds_app Hout Hfuel.
    destruct fuel as [|fuel]; [lia|]. simpl.
    rewrite (outside_not_in stack lo (List.length ext + 1)) by (auto; lia).
    pose proof (Hcell 0 (OArr vs) eq_refl) as Hc. rewrite Nat.add_0_r in Hc. rewrite Hc.
    rewrite Hes; [reflexivity|exact Hext| |lia].
    intros a [<-|Ha]; [lia|]. apply Hout in Ha. lia.
  - simpl in Hok. apply andb_prop in Hok. destruct Hok as [Hkeys Hok].
    rewrite revive_object.
    pose proof (revive_serialize_members members IH Hok lo H) as Hms.
    pose proof (revive_members_keys members lo) as Hk.
    destruct (revive_members lo members) as [props ext]. simpl in *.
    rewrite define_all_distinct by now rewrite Hk.
    rewrite length_app. simpl. intros [Hext Hcell]%holds_app Hout Hfuel.
    destruct fuel as [|fuel]; [lia|]. simpl.
    rewrite (outside_not_in stack lo (List.length ext + 1)) by (auto; lia).
    pose proof (Hcell 0 (OObj props) eq_refl) as Hc. rewrite Nat.add_0_r in Hc. rewrite Hc.
    rewrite Hms; [reflexivity|exact Hext| |lia].
    intros a [<-|Ha]; [lia|]. apply Hout in Ha. lia.
Qed.

Lemma revive_members_serialize (members : list (string * JSON)) :
  forallb (fun m => json_ok (snd m)) members = true ->
  forall lo H stack fuel,
    holds H lo (snd (revive_members lo members)) ->
    outside stack lo (List.length (snd (revive_members lo members))) ->
    List.length (snd (revive_members lo members)) < fuel ->
    serialize_members (SerializeJSONProperty fuel H stack) (fst (revive_members lo members))
    = Returns members.
Proof.
  apply revive_serialize_members, List.Forall_forall.
  intros m _. apply revive_serialize.
Qed.

(** * Members of JSON objects *)

Lemma member_with_member_eq (members : list (string * JSON)) (k : string) (j : JSON) :
  member (with_member members k j) k = Some j.
Proof.
  induction members as [|[k' j'] members IH]; simpl.
  - now rewrite String.eqb_refl.
  - destruct (String.eqb k' k) eqn:E; simpl; now rewrite E.
Qed.

Lemma member_with_member_ne (members : list (string * JSON)) (k k' : string) (j : JSON) :
  k <> k' -> member (with_member members k j) k' = member members k'.
Proof.
  intros Hne. apply String.eqb_neq in Hne.
  induction members as [|[k0 j0] members IH]; simpl.
  - now rewrite Hne.
  - destruct (String.eqb k0 k) eqn:E; simpl; [|now rewrite IH].
    apply String.eqb_eq in E. subst k0. now rewrite Hne.
Qed.

Lemma member_split (members : list (string * JSON)) (k : string) (j : JSON) :
  member members k = Some j ->
  exists before after,
    members = before ++ (k, j) :: after /\ member before k = None.
Proof.
  induction members as [|[k' j'] members IH]; simpl; [discriminate|].
  destruct (String.eqb k' k) eqn:E.
  - intros [= ->]. apply String.eqb_eq in E. subst k'. now exists [], members.
  - intros H. destruct (IH H) as (before & after & -> & Hb).
    exists ((k', j') :: before), after. simpl. now rewrite E.
Qed.

Lemma with_member_split (before after : list (string * JSON)) (k : string) (j j' : JSON) :
  member before k = None ->
  with_member (before ++ (k, j) :: after) k j' = before ++ (k, j') :: after.
Proof.
  induction before as [|[k0 j0] before IH]; simpl.
  - now rewrite String.eqb_refl.
  - destruct (String.eqb k0 k); [discriminate|]. intros H. now rewrite IH.
Qed.






(** * Serializing property lists *)

Lemma serialize_members_app (ser : value -> outcome (option JSON))
    (a b : list (string * value)) :
  serialize_members ser (a ++ b)
  = bind (serialize_members ser a) (fun x =>
    bind (serialize_members ser b) (fun y => Returns (x ++ y))).
Proof.
  induction a as [|[k v] a IH]; simpl.
  - now destruct (serialize_members ser b).
  - destruct (ser v) as [o| |]; simpl; try reflexivity. rewrite IH.
    destruct (serialize_members ser a) as [x| |]; simpl; try reflexivity.
    destruct (serialize_members ser b) as [y| |]; simpl; try reflexivity.
    now destruct o.
Qed.

Lemma serialize_members_define (ser : value -> outcome (option JSON))
    (props : list (string * value)) (members : list (string * JSON))
    (k : string) (v : value) (j : JSON) :
  serialize_members ser props = Returns members ->
  List.Forall (fun p => ser (snd p) <> Returns None) props ->
  ser v = Returns (Some j) ->
  serialize_members ser (define_prop props k v) = Returns (with_member members k j).
Proof.
  intros Hs Hd Hv. revert members Hs.
  induction Hd as [|[k0 v0] props H0 _ IH]; intros members; simpl.
  - intros [= <-]. now rewrite Hv.
  - simpl in H0. destruct (ser v0) as [[j0|]| |] eqn:E0; simpl; try discriminate; [|congruence].
    destruct (serialize_members ser props) as [ms| |] eqn:Ems; simpl; try discriminate.
    intros [= <-]. simpl. destruct (String.eqb k0 k); simpl.
    + now rewrite Hv, Ems.
    + now rewrite E0, (IH ms eq_refl).
Qed.

(** * The properties of a parsed object *)

Lemma revive_members_app (a b : list (string * JSON)) :
  forall lo,
    revive_members lo (a ++ b)
    = let '(pa, xa) := revive_members lo a in
      let '(pb, xb) := revive_members (lo + List.length xa) b in
      (pa ++ pb, xa ++ xb).
Proof.
  induction a as [|[k e] a IH]; intros lo; simpl.
  - rewrite Nat.add_0_r. now destruct (revive_members lo b).
  - destruct (revive lo e) as [v x]. rewrite IH.
    destruct (revive_members (lo + List.length x) a) as [pa xa].
    rewrite length_app, Nat.add_assoc.
    destruct (revive_members _ b) as [pb xb]. now rewrite app_assoc.
Qed.

Lemma revive_members_absent (members : list (string * JSON)) (k : string) :
  member members k = None ->
  forall lo, lookup_prop (fst (revive_members lo members)) k = None.
Proof.
  induction members as [|[k0 j0] members IH]; intros Hm lo; simpl in *; [reflexivity|].
  destruct (revive lo j0) as [v x]. specialize (IH).
  destruct (String.eqb k0 k) eqn:E; [discriminate|].
  specialize (IH Hm (lo + List.length x)).
  destruct (revive_members _ members). simpl in *. now rewrite E.
Qed.

Lemma lookup_prop_app (a b : list (string * value)) (k : string) :
  lookup_prop a k = None -> lookup_prop (a ++ b) k = lookup_prop b k.
Proof.
  induction a as [|[k0 v0] a IH]; simpl; [reflexivity|].
  destruct (String.eqb k0 k); [discriminate | exact IH].
Qed.

(** The truth value of a property of a parsed object is that of the
    member it was parsed from. *)
Lemma revive_members_truthy (members : list (string * JSON)) (k : string) :
  forall lo,
    truthy (property (fst (revive_members lo members)) k) = truthy_member members k.
Proof.
  unfold truthy_member, property.
  induction members as [|[k0 j0] members IH]; intros lo; simpl; [reflexivity|].
  pose proof (revive_truthy j0 lo) as Ht.
  destruct (revive lo j0) as [v x]. specialize (IH (lo + List.length x)).
  destruct (revive_members _ members). simpl in *.
  now destruct (String.eqb k0 k).
Qed.

(** * What [JSON.stringify] produces *)

Lemma serialize_primitive (fuel : nat) (H : heap) (stack : list loc) (v : value) :
  match v with VObject _ => False | _ => True end ->
  SerializeJSONProperty fuel H stack v
  = Returns match v with
            | VUndefined => None
            | VNull => Some JNull
            | VBoolean b => Some (JBoolean b)
            | VNumber x => Some (Number_json x)
            | VString s => Some (JString s)
            | VObject _ => None
            end.
Proof. destruct fuel, v; simpl; tauto. Qed.

Lemma serialize_members_keys (ser : value -> outcome (option JSON))
    (props : list (string * value)) :
  forall members k,
    serialize_members ser props = Returns members ->
    existsb (String.eqb k) (map fst props) = false ->
    existsb (String.eqb k) (map fst members) = false.
Proof.
  induction props as [|[k0 v0] props IH]; intros members k; simpl.
  - now intros [= <-].
  - destruct (ser v0) as [o| |]; simpl; try discriminate.
    destruct (serialize_members ser props) as [ms| |]; simpl; try discriminate.
    intros [= <-] [H0 Hk]%orb_false_elim. specialize (IH ms k eq_refl Hk).
    destruct o; simpl; [now rewrite H0, IH | exact IH].
Qed.

Lemma serialize_members_ok (ser : value -> outcome (option JSON))
    (props : list (string * value)) :
  (forall v j, ser v = Returns (Some j) -> json_ok j = true) ->
  distinct (map fst props) = true ->
  forall members,
    serialize_members ser props = Returns members ->
    json_ok (JObject members) = true.
Proof.
  intros Hser. induction props as [|[k0 v0] props IH]; intros Hd members; simpl.
  - now intros [= <-].
  - simpl in Hd. apply andb_prop in Hd. destruct Hd as [H0 Hd].
    destruct (ser v0) as [o| |] eqn:E0; simpl; try discriminate.
    destruct (serialize_members ser props) as [ms| |] eqn:Ems; simpl; try discriminate.
    intros [= <-]. specialize (IH Hd ms eq_refl). destruct o as [j0|]; [|exact IH].
    simpl in *. apply andb_prop in IH. destruct IH as [IHd IHall].
    rewrite IHd, IHall, (Hser _ _ E0), !andb_true_r.
    apply negb_true_iff in H0. now rewrite (serialize_members_keys _ _ _ _ Ems H0).
Qed.

Lemma serialize_elements_ok (ser : value -> outcome (option JSON)) (elems : list value) :
  (forall v j, ser v = Returns (Some j) -> json_ok j = true) ->
  forall js, serialize_elements ser elems = Returns js -> forallb json_ok js = true.
Proof.
  intros Hser. induction elems as [|v0 elems IH]; intros js; simpl.
  - now intros [= <-].
  - destruct (ser v0) as [o| |] eqn:E0; simpl; try discriminate.
    destruct (serialize_elements ser elems) as [js0| |] eqn:Ejs; simpl; try discriminate.
    intros [= <-]. simpl. rewrite (IH js0 eq_refl), andb_true_r.
    destruct o as [j0|]; [exact (Hser _ _ E0) | reflexivity].
Qed.

Lemma heap_ok_lookup (H : heap) (l : nat) (o : object) :
  heap_ok H = true -> H !! l = Some o -> object_ok o = true.
Proof.
  unfold heap_ok. rewrite forallb_forall. intros Hall Hl. apply Hall.
  apply list_elem_of_In, list_elem_of_lookup. now exists l.
Qed.

(** In a heap of objects with distinct property names, no serialized
    object has two members of one name. *)
Lemma serialize_ok (H : heap) :
  heap_ok H = true ->
  forall fuel stack v j,
    SerializeJSONProperty fuel H stack v = Returns (Some j) -> json_ok j = true.
Proof.
  intros Hok. induction fuel as [|fuel IH]; intros stack v j.
  - destruct v; simpl; intros [= <-] || discriminate;
      reflexivity || apply json_ok_Number.
  - destruct v as [| |b|x|s|l]; simpl;
      try (intros [= <-]; reflexivity || apply json_ok_Number).
    destruct (existsb (Nat.eqb l) stack); [discriminate|].
    destruct (H !! l) as [[props|elems]|] eqn:Hl; try discriminate.
    + destruct (serialize_members _ props) as [ms| |] eqn:Ems; simpl; try discriminate.
      intros [= <-]. apply (serialize_members_ok _ props (IH (l :: stack))); [|exact Ems].
      exact (heap_ok_lookup _ _ _ Hok Hl).
    + destruct (serialize_elements _ elems) as [js| |] eqn:Ejs; simpl; try discriminate.
      intros [= <-]. simpl. exact (serialize_elements_ok _ elems (IH (l :: stack)) _ Ejs).
Qed.

(** * Steps of a computation on the heap *)

Lemma bindM_returns {A B : Type} (m : M A) (k : A -> M B) (H H' : heap) (a : A) :
  m H = (Returns a, H') -> bindM m k H = k a H'.
Proof. unfold bindM. now intros ->. Qed.

Lemma Get_object (H : heap) (l : nat) (props : list (string * value)) (k : string) :
  H !! l = Some (OObj props) -> Get (VObject l) k H = (Returns (property props k), H).
Proof. unfold Get. now intros ->. Qed.

Lemma Get_array (H : heap) (l : nat) (elems : list value) (k : string) :
  H !! l = Some (OArr elems) -> Get (VObject l) k H = (Returns VUndefined, H).
Proof. unfold Get. now intros ->. Qed.

Lemma Set_object (H : heap) (l : nat) (props : list (string * value)) (k : string)
    (x : value) :
  H !! l = Some (OObj props) ->
  Set_ (VObject l) k x H = (Returns tt, <[l := OObj (define_prop props k x)]> H).
Proof. unfold Set_. now intros ->. Qed.

Lemma property_define_eq (props : list (string * value)) (k : string) (v : value) :
  property (define_prop props k v) k = v.
Proof. unfold property. now rewrite lookup_define_eq. Qed.

(** * [analyze] after the copy *)

Section AfterCopy.

Variables (exec : engine) (self : SentimentAnalyzer).
Variables (H : heap) (r m : nat) (props mprops : list (string * value)).
Hypothesis Hr : H !! r = Some (OObj props).
Hypothesis Hm : H !! m = Some (OObj mprops).
Hypothesis Hmr : m <> r.

(** The copy has no usable [behavior_tags]: an empty object is put
    there and receives the tag. *)
Lemma copy_without_tags :
  truthy (property props "behavior_tags") = false ->
  analyze_copy exec self (VObject m) (VObject r) H
  = let H1 := <[r := OObj (define_prop props "behavior_tags" (VObject (List.length H)))]>
                (H ++ [OObj []]) in
    match analyzeSentiment exec self (property mprops "content") with
    | Returns a =>
        (Returns (VObject r),
         <[List.length H := OObj [("sentiment", VObject (S (List.length H)))]]>
           (H1 ++ [sentiment_object a]))
    | Throws e => (Throws e, H1)
    | Unmodelled => (Unmodelled, H1)
    end.
Proof.
  intros Ht. pose proof (lookup_lt_Some _ _ _ Hr) as Hlr.
  pose proof (lookup_lt_Some _ _ _ Hm) as Hlm.
  unfold analyze_copy.
  rewrite (bindM_returns _ _ _ _ _ (Get_object _ _ _ "behavior_tags" Hr)).
  rewrite Ht. cbn [negb].
  set (H1 := <[r := OObj (define_prop props "behavior_tags" (VObject (List.length H)))]>
               (H ++ [OObj []])).
  assert (Hset : (let* empty := alloc (OObj []) in Set_ (VObject r) "behavior_tags" empty) H
                 = (Returns tt, H1)).
  { unfold alloc. unfold bindM at 1.
    apply Set_object. now apply lookup_app_l_Some. }
  rewrite (bindM_returns _ _ _ _ _ Hset).
  assert (H1r : H1 !! r = Some (OObj (define_prop props "behavior_tags"
                                        (VObject (List.length H))))).
  { apply list_lookup_insert_eq. rewrite length_app. simpl. lia. }
  assert (H1e : H1 !! List.length H = Some (OObj [])).
  { unfold H1. rewrite list_lookup_insert_ne by lia. now apply list_lookup_middle. }
  assert (H1m : H1 !! m = Some (OObj mprops)).
  { unfold H1. rewrite list_lookup_insert_ne by lia. now apply lookup_app_l_Some. }
  assert (Hlen : List.length H1 = S (List.length H)).
  { unfold H1. rewrite length_insert, length_app. simpl. lia. }
  rewrite (bindM_returns _ _ _ _ _ (Get_object _ _ _ "behavior_tags" H1r)).
  rewrite property_define_eq.
  rewrite (bindM_returns _ _ _ _ _ (Get_object _ _ _ "sentiment" H1e)).
  cbn [property lookup_prop truthy].
  rewrite (bindM_returns _ _ _ _ _ (Get_object _ _ _ "content" H1m)).
  unfold lift at 1. unfold bindM at 1.
  destruct (analyzeSentiment exec self (property mprops "content")) as [a| |]; try reflexivity.
  rewrite (bindM_returns _ _ _ _ _ (Get_object _ _ _ "behavior_tags" H1r)).
  rewrite property_define_eq.
  unfold alloc at 1. unfold bindM at 1. rewrite Hlen.
  assert (H2e : (H1 ++ [sentiment_object a]) !! List.length H = Some (OObj []))
    by now apply lookup_app_l_Some.
  rewrite (bindM_returns _ _ _ _ _ (Set_object _ _ _ "sentiment" _ H2e)).
  reflexivity.
Qed.

(** The copy has [behavior_tags] with a sentiment that counts: nothing
    is done. *)
Lemma copy_with_sentiment (b : nat) (bprops : list (string * value)) :
  property props "behavior_tags" = VObject b ->
  H !! b = Some (OObj bprops) ->
  truthy (property bprops "sentiment") = true ->
  analyze_copy exec self (VObject m) (VObject r) H = (Returns (VObject r), H).
Proof.
  intros Hb Hbo Ht. unfold analyze_copy.
  rewrite (bindM_returns _ _ _ _ _ (Get_object _ _ _ "behavior_tags" Hr)).
  rewrite Hb. cbn [truthy negb]. unfold ret at 1. unfold bindM at 1.
  rewrite (bindM_returns _ _ _ _ _ (Get_object _ _ _ "behavior_tags" Hr)).
  rewrite Hb.
  rewrite (bindM_returns _ _ _ _ _ (Get_object _ _ _ "sentiment" Hbo)).
  now rewrite Ht.
Qed.

(** The copy has [behavior_tags] without such a sentiment: they receive
    the tag. *)
Lemma copy_with_tags (b : nat) (bprops : list (string * value)) :
  property props "behavior_tags" = VObject b ->
  H !! b = Some (OObj bprops) ->
  truthy (property bprops "sentiment") = false ->
  analyze_copy exec self (VObject m) (VObject r) H
  = match analyzeSentiment exec self (property mprops "content") with
    | Returns a =>
        (Returns (VObject r),
         <[b := OObj (define_prop bprops "sentiment" (VObject (List.length H)))]>
           (H ++ [sentiment_object a]))
    | Throws e => (Throws e, H)
    | Unmodelled => (Unmodelled, H)
    end.
Proof.
  intros Hb Hbo Ht. unfold analyze_copy.
  rewrite (bindM_returns _ _ _ _ _ (Get_object _ _ _ "behavior_tags" Hr)).
  rewrite Hb. cbn [truthy negb]. unfold ret at 1. unfold bindM at 1.
  rewrite (bindM_returns _ _ _ _ _ (Get_object _ _ _ "behavior_tags" Hr)).
  rewrite Hb.
  rewrite (bindM_returns _ _ _ _ _ (Get_object _ _ _ "sentiment" Hbo)).
  rewrite Ht.
  rewrite (bindM_returns _ _ _ _ _ (Get_object _ _ _ "content" Hm)).
  unfold lift at 1. unfold bindM at 1.
  destruct (analyzeSentiment exec self (property mprops "content")) as [a| |]; try reflexivity.
  rewrite (bindM_returns _ _ _ _ _ (Get_object _ _ _ "behavior_tags" Hr)).
  rewrite Hb. unfold alloc at 1. unfold bindM at 1.
  assert (H2b : (H ++ [sentiment_object a]) !! b = Some (OObj bprops))
    by now apply lookup_app_l_Some.
  rewrite (bindM_returns _ _ _ _ _ (Set_object _ _ _ "sentiment" _ H2b)).
  reflexivity.
Qed.

(** The copy has an array as [behavior_tags]: the assignment of the tag
    leaves the model. *)
Lemma copy_with_array (b : nat) (elems : list value) :
  property props "behavior_tags" = VObject b ->
  H !! b = Some (OArr elems) ->
  analyze_copy exec self (VObject m) (VObject r) H
  = match analyzeSentiment exec self (property mprops "content") with
    | Returns a => (Unmodelled, H ++ [sentiment_object a])
    | Throws e => (Throws e, H)
    | Unmodelled => (Unmodelled, H)
    end.
Proof.
  intros Hb Hbo. unfold analyze_copy.
  rewrite (bindM_returns _ _ _ _ _ (Get_object _ _ _ "behavior_tags" Hr)).
  rewrite Hb. cbn [truthy negb]. unfold ret at 1. unfold bindM at 1.
  rewrite (bindM_returns _ _ _ _ _ (Get_object _ _ _ "behavior_tags" Hr)).
  rewrite Hb.
  rewrite (bindM_returns _ _ _ _ _ (Get_array _ _ _ "sentiment" Hbo)).
  cbn [truthy].
  rewrite (bindM_returns _ _ _ _ _ (Get_object _ _ _ "content" Hm)).
  unfold lift at 1. unfold bindM at 1.
  destruct (analyzeSentiment exec self (property mprops "content")) as [a| |]; try reflexivity.
  rewrite (bindM_returns _ _ _ _ _ (Get_object _ _ _ "behavior_tags" Hr)).
  rewrite Hb. unfold alloc at 1. unfold bindM at 1.
  unfold Set_, bindM.
  now rewrite (lookup_app_l_Some _ _ _ _ Hbo).
Qed.

(** The copy has a primitive that counts as [behavior_tags]: the
    assignment of the tag throws. *)
Lemma copy_with_primitive (t : value) :
  property props "behavior_tags" = t ->
  truthy t = true ->
  match t with VObject _ => False | _ => True end ->
  analyze_copy exec self (VObject m) (VObject r) H
  = match analyzeSentiment exec self (property mprops "content") with
    | Returns a => (Throws TypeError, H ++ [sentiment_object a])
    | Throws e => (Throws e, H)
    | Unmodelled => (Unmodelled, H)
    end.
Proof.
  intros Hb Ht Hprim. unfold analyze_copy.
  rewrite (bindM_returns _ _ _ _ _ (Get_object _ _ _ "behavior_tags" Hr)).
  rewrite Hb, Ht. cbn [negb]. unfold ret at 1. unfold bindM at 1.
  rewrite (bindM_returns _ _ _ _ _ (Get_object _ _ _ "behavior_tags" Hr)).
  rewrite Hb.
  assert (Hget : Get t "sentiment" H = (Returns VUndefined, H))
    by (destruct t; simpl in *; (discriminate || tauto || reflexivity)).
  rewrite (bindM_returns _ _ _ _ _ Hget). cbn [truthy].
  rewrite (bindM_returns _ _ _ _ _ (Get_object _ _ _ "content" Hm)).
  unfold lift at 1. unfold bindM at 1.
  destruct (analyzeSentiment exec self (property mprops "content")) as [a| |]; try reflexivity.
  rewrite (bindM_returns _ _ _ _ _ (Get_object _ _ _ "behavior_tags" Hr)).
  rewrite Hb. unfold alloc at 1. unfold bindM at 1.
  destruct t; simpl in *; (discriminate || tauto || reflexivity).
Qed.

End AfterCopy.

(** * The JSON form of the result *)

Lemma holds_at (H pre ext rest : heap) (lo : nat) :
  H = pre ++ ext ++ rest -> lo = List.length pre -> holds H lo ext.
Proof. intros -> ->. apply holds_here. Qed.

Lemma lookup_at (H pre rest : heap) (l : nat) (o : object) :
  H = pre ++ o :: rest -> l = List.length pre -> H !! l = Some o.
Proof. intros -> ->. now apply list_lookup_middle. Qed.

Lemma not_in_stack (l : nat) (stack : list nat) :
  Forall (fun a => a <> l) stack -> existsb (Nat.eqb l) stack = false.
Proof.
  induction 1 as [|a stack Ha _ IH]; simpl; [reflexivity|].
  rewrite IH, orb_false_r. apply Nat.eqb_neq. congruence.
Qed.

Lemma serialize_object (H : heap) (stack : list nat) (fuel l : nat)
    (props : list (string * value)) :
  H !! l = Some (OObj props) ->
  existsb (Nat.eqb l) stack = false ->
  SerializeJSONProperty (S fuel) H stack (VObject l)
  = bind (serialize_members (SerializeJSONProperty fuel H (l :: stack)) props)
         (fun ms => Returns (Some (JObject ms))).
Proof. intros Hl Hstack. simpl. now rewrite Hstack, Hl. Qed.

(** The tag serializes to [sentiment_tag]. *)
Lemma serialize_tag (H : heap) (stack : list nat) (fuel s : nat) (a : Analysis) :
  H !! s = Some (sentiment_object a) ->
  existsb (Nat.eqb s) stack = false ->
  SerializeJSONProperty (S fuel) H stack (VObject s) = Returns (Some (sentiment_tag a)).
Proof.
  intros Hs Hstack. simpl. rewrite Hstack, Hs. unfold sentiment_object. simpl.
  now rewrite !serialize_primitive.
Qed.

Section Views.

Variables (h : heap) (a : Analysis).

(** The result when the copy had no usable [behavior_tags]. *)
Lemma view_without_tags (members : list (string * JSON)) (props : list (string * value))
    (em HF : heap) :
  forallb (fun m => json_ok (snd m)) members = true ->
  revive_members (List.length h) members = (props, em) ->
  HF = h ++ em ++ [OObj (define_prop props "behavior_tags"
                           (VObject (S (List.length h + List.length em))));
                   OObj [("sentiment", VObject (S (S (List.length h + List.length em))))];
                   sentiment_object a] ->
  SerializeJSONProperty (S (List.length HF)) HF [] (VObject (List.length h + List.length em))
  = Returns (Some (JObject (with_member members "behavior_tags"
                             (JObject [("sentiment", sentiment_tag a)])))).
Proof.
  intros Hok Hrev HHF.
  set (r := List.length h + List.length em) in *.
  assert (Hlen : List.length HF = S (S (S r))).
  { rewrite HHF, !length_app. simpl. unfold r. lia. }
  assert (H0 : HF !! r = Some (OObj (define_prop props "behavior_tags" (VObject (S r))))).
  { eapply (lookup_at HF (h ++ em)); [now rewrite HHF, <- app_assoc|].
    now rewrite length_app. }
  assert (H1 : HF !! S r = Some (OObj [("sentiment", VObject (S (S r)))])).
  { apply (lookup_at _ (h ++ em ++ [OObj (define_prop props "behavior_tags" (VObject (S r)))])
             [sentiment_object a]).
    - rewrite HHF. now rewrite <- !app_assoc.
    - rewrite !length_app. simpl. unfold r. lia. }
  assert (H2 : HF !! S (S r) = Some (sentiment_object a)).
  { apply (lookup_at _ (h ++ em ++ [OObj (define_prop props "behavior_tags" (VObject (S r)));
                                   OObj [("sentiment", VObject (S (S r)))]]) []).
    - rewrite HHF. now rewrite <- !app_assoc.
    - rewrite !length_app. simpl. unfold r. lia. }
  rewrite (serialize_object HF [] _ r _ H0 eq_refl).
  rewrite (serialize_members_define _ props members _ _
             (JObject [("sentiment", sentiment_tag a)])); [reflexivity| | |].
  - pose proof (revive_members_serialize members Hok (List.length h) HF [r]
                  (List.length HF)) as Hs.
    rewrite Hrev in Hs. cbn [fst snd] in Hs. apply Hs.
    + apply (holds_at _ h _ _ _ HHF eq_refl).
    + intros x [<-|[]]. unfold r. lia.
    + rewrite Hlen. unfold r. lia.
  - pose proof (revive_members_defined members (List.length h)) as Hd.
    rewrite Hrev in Hd. simpl in Hd.
    eapply List.Forall_impl; [|exact Hd]. intros p Hp. now apply serialize_defined.
  - rewrite Hlen.
    rewrite (serialize_object _ _ _ _ _ H1) by (apply not_in_stack; repeat constructor; lia).
    cbn [serialize_members].
    rewrite (serialize_tag HF _ _ _ a H2); [reflexivity|].
    apply not_in_stack. repeat constructor; lia.
Qed.

(** The result when the copy had [behavior_tags] without a sentiment
    that counts. *)
Lemma view_with_tags (before after tags : list (string * JSON))
    (p1 p2 bprops : list (string * value)) (e1 e2 eb HF : heap) (b r : nat) :
  forallb (fun m => json_ok (snd m)) before = true ->
  forallb (fun m => json_ok (snd m)) after = true ->
  forallb (fun m => json_ok (snd m)) tags = true ->
  revive_members (List.length h) before = (p1, e1) ->
  revive_members (List.length h + List.length e1) tags = (bprops, eb) ->
  b = List.length h + List.length e1 + List.length eb ->
  revive_members (S b) after = (p2, e2) ->
  r = S b + List.length e2 ->
  HF = h ++ e1 ++ eb ++ [OObj (define_prop bprops "sentiment" (VObject (S r)))] ++ e2
         ++ [OObj (p1 ++ ("behavior_tags", VObject b) :: p2); sentiment_object a] ->
  SerializeJSONProperty (S (List.length HF)) HF [] (VObject r)
  = Returns (Some (JObject (before ++
      ("behavior_tags", JObject (with_member tags "sentiment" (sentiment_tag a))) :: after))).
Proof.
  intros Hok1 Hok2 Hokt Hrev1 Hrevt Hb Hrev2 Hr HHF.
  assert (Hlen : List.length HF = S (S r)).
  { rewrite HHF, !length_app. simpl. lia. }
  assert (H0 : HF !! r = Some (OObj (p1 ++ ("behavior_tags", VObject b) :: p2))).
  { eapply (lookup_at HF (h ++ e1 ++ eb ++
              [OObj (define_prop bprops "sentiment" (VObject (S r)))] ++ e2)).
    - rewrite HHF. now rewrite <- !app_assoc.
    - rewrite !length_app. simpl. lia. }
  assert (Hcell : HF !! b = Some (OObj (define_prop bprops "sentiment" (VObject (S r))))).
  { eapply (lookup_at HF (h ++ e1 ++ eb)).
    - rewrite HHF. now rewrite <- !app_assoc.
    - rewrite !length_app. lia. }
  assert (H2 : HF !! S r = Some (sentiment_object a)).
  { eapply (lookup_at HF (h ++ e1 ++ eb ++
              [OObj (define_prop bprops "sentiment" (VObject (S r)))] ++ e2 ++
              [OObj (p1 ++ ("behavior_tags", VObject b) :: p2)]) []).
    - rewrite HHF. now rewrite <- !app_assoc.
    - rewrite !length_app. simpl. lia. }
  rewrite (serialize_object HF [] _ r _ H0 eq_refl).
  rewrite serialize_members_app.
  pose proof (revive_members_serialize before Hok1 (List.length h) HF [r]
                (List.length HF)) as Hs1.
  rewrite Hrev1 in Hs1. cbn [fst snd] in Hs1. rewrite Hs1; cycle 1.
  { apply (holds_at _ h _ _ _ HHF eq_refl). }
  { intros x [<-|[]]. lia. }
  { lia. }
  cbn [bind serialize_members]. rewrite Hlen.
  rewrite (serialize_object _ _ _ _ _ Hcell) by (apply not_in_stack; repeat constructor; lia).
  rewrite (serialize_members_define _ bprops tags _ _ (sentiment_tag a)); cycle 1.
  { pose proof (revive_members_serialize tags Hokt (List.length h + List.length e1) HF
                  [b; r] (S r)) as Hs.
    rewrite Hrevt in Hs. cbn [fst snd] in Hs. apply Hs.
    - apply (holds_at _ (h ++ e1) _
               ([OObj (define_prop bprops "sentiment" (VObject (S r)))] ++ e2 ++
                [OObj (p1 ++ ("behavior_tags", VObject b) :: p2); sentiment_object a])).
      + rewrite HHF. now rewrite <- !app_assoc.
      + now rewrite length_app.
    - intros x [<-|[<-|[]]]; lia.
    - lia. }
  { pose proof (revive_members_defined tags (List.length h + List.length e1)) as Hd.
    rewrite Hrevt in Hd. simpl in Hd.
    eapply List.Forall_impl; [|exact Hd]. intros p Hp. now apply serialize_defined. }
  { apply serialize_tag; [exact H2|]. apply not_in_stack. repeat constructor; lia. }
  cbn [bind].
  pose proof (revive_members_serialize after Hok2 (S b) HF [r] (S (S r))) as Hs2.
  rewrite Hrev2 in Hs2. cbn [fst snd] in Hs2. rewrite Hs2; [reflexivity| | |lia].
  - apply (holds_at _ (h ++ e1 ++ eb ++ [OObj (define_prop bprops "sentiment" (VObject (S r)))])
             _ [OObj (p1 ++ ("behavior_tags", VObject b) :: p2); sentiment_object a]).
    + rewrite HHF. now rewrite <- !app_assoc.
    + rewrite !length_app. simpl. lia.
  - intros x [<-|[]]. lia.
Qed.

(** The copy itself serializes to the text it was parsed from. *)
Lemma view_copy (j : JSON) (v : value) (ext : heap) :
  json_ok j = true ->
  revive (List.length h) j = (v, ext) ->
  SerializeJSONProperty (S (List.length (h ++ ext))) (h ++ ext) [] v = Returns (Some j).
Proof.
  intros Hok Hrev.
  pose proof (revive_serialize j Hok (List.length h) (h ++ ext) []
                (S (List.length (h ++ ext)))) as Hs.
  rewrite Hrev in Hs. cbn [fst snd] in Hs. apply Hs.
  - apply (holds_at _ h _ []); [now rewrite app_nil_r | reflexivity].
  - intros x [].
  - rewrite length_app. lia.
Qed.

End Views.

(** * [analyze] on a message *)

Lemma insert_at (pre rest : heap) (l : nat) (o o' : object) :
  l = List.length pre -> <[l := o']> (pre ++ o :: rest) = pre ++ o' :: rest.
Proof.
  intros ->. rewrite insert_app_r_alt by lia. now rewrite Nat.sub_diag.
Qed.

(** Only a plain object serializes to a JSON object. *)
Lemma serialize_to_object (h : heap) (fuel : nat) (stack : list nat) (message : value)
    (members : list (string * JSON)) :
  SerializeJSONProperty fuel h stack message = Returns (Some (JObject members)) ->
  exists m mprops, message = VObject m /\ h !! m = Some (OObj mprops).
Proof.
  destruct fuel as [|fuel], message as [| |b|x|s|l]; simpl; try discriminate;
    try (unfold Number_json; destruct (is_finite x); discriminate).
  destruct (existsb (Nat.eqb l) stack); [discriminate|].
  destruct (h !! l) as [[props|elems]|] eqn:Hl; try discriminate.
  - intros _. now exists l, props.
  - destruct (serialize_elements _ elems); simpl; discriminate.
Qed.

Section Analyze.

Variables (exec : engine) (self : SentimentAnalyzer).
Variables (h : heap) (m : nat) (mprops : list (string * value)).
Variables (members : list (string * JSON)) (props : list (string * value)) (em : heap).
Hypothesis Hok : json_ok (JObject members) = true.
Hypothesis Hm : h !! m = Some (OObj mprops).
Hypothesis Hser :
  SerializeJSONProperty (S (List.length h)) h [] (VObject m) = Returns (Some (JObject members)).
Hypothesis Hrev : revive_members (List.length h) members = (props, em).

Lemma members_ok : forallb (fun e => json_ok (snd e)) members = true.
Proof. pose proof Hok as H. simpl in H. now apply andb_prop in H. Qed.

Lemma props_distinct : define_all props = props.
Proof.
  apply define_all_distinct. pose proof (revive_members_keys members (List.length h)) as Hk.
  rewrite Hrev in Hk. simpl in Hk. rewrite Hk.
  pose proof Hok as H. simpl in H. now apply andb_prop in H.
Qed.

(** The copy of the message. *)
Lemma analyze_copies :
  analyze exec self (VObject m) h
  = analyze_copy exec self (VObject m) (VObject (List.length h + List.length em))
      (h ++ em ++ [OObj props]).
Proof.
  unfold analyze. unfold bindM at 1. unfold JSON_stringify. rewrite Hser.
  unfold bindM at 1. unfold JSON_parse. rewrite revive_object, Hrev, props_distinct.
  reflexivity.
Qed.

Lemma copy_root : (h ++ em ++ [OObj props]) !! (List.length h + List.length em)
                  = Some (OObj props).
Proof. eapply (lookup_at _ (h ++ em)); [now rewrite <- app_assoc | now rewrite length_app]. Qed.

Lemma copy_message : (h ++ em ++ [OObj props]) !! m = Some (OObj mprops).
Proof. now apply lookup_app_l_Some. Qed.

Lemma message_not_root : m <> List.length h + List.length em.
Proof. apply lookup_lt_Some in Hm. lia. Qed.

Lemma copy_length : List.length (h ++ em ++ [OObj props]) = S (List.length h + List.length em).
Proof. rewrite !length_app. simpl. lia. Qed.

(** The message has no [behavior_tags] that count. *)
Lemma analyze_without_tags :
  truthy_member members "behavior_tags" = false ->
  analyze exec self (VObject m) h
  = let r := List.length h + List.length em in
    let props' := define_prop props "behavior_tags" (VObject (S r)) in
    match analyzeSentiment exec self (property mprops "content") with
    | Returns a =>
        (Returns (VObject r),
         h ++ em ++ [OObj props'; OObj [("sentiment", VObject (S (S r)))];
                     sentiment_object a])
    | Throws e => (Throws e, h ++ em ++ [OObj props'; OObj []])
    | Unmodelled => (Unmodelled, h ++ em ++ [OObj props'; OObj []])
    end.
Proof.
  intros Ht. rewrite analyze_copies.
  rewrite (copy_without_tags exec self _ _ _ _ _ copy_root copy_message message_not_root).
  - cbv zeta. rewrite copy_length.
    set (r := List.length h + List.length em).
    assert (E1 : <[r := OObj (define_prop props "behavior_tags" (VObject (S r)))]>
                   ((h ++ em ++ [OObj props]) ++ [OObj []])
                 = h ++ em ++ [OObj (define_prop props "behavior_tags" (VObject (S r)));
                               OObj []]).
    { transitivity (<[List.length (h ++ em) + 0 :=
                       OObj (define_prop props "behavior_tags" (VObject (S r)))]>
                      ((h ++ em) ++ [OObj props; OObj []])).
      - f_equal; [rewrite length_app; unfold r; lia | now rewrite <- !app_assoc].
      - rewrite insert_app_r. simpl. now rewrite <- app_assoc. }
    rewrite E1. destruct (analyzeSentiment exec self (property mprops "content")) as [a| |];
      try reflexivity.
    f_equal.
    transitivity (<[List.length (h ++ em) + 1 := OObj [("sentiment", VObject (S (S r)))]]>
                    ((h ++ em) ++ [OObj (define_prop props "behavior_tags" (VObject (S r)));
                                   OObj []; sentiment_object a])).
    + f_equal; [rewrite length_app; unfold r; lia | now rewrite <- !app_assoc].
    + rewrite insert_app_r. simpl. now rewrite <- app_assoc.
  - pose proof (revive_members_truthy members "behavior_tags" (List.length h)) as H.
    rewrite Hrev in H. simpl in H. now rewrite H.
Qed.

End Analyze.

(** * [analyze] on a message with [behavior_tags] *)

Section Tagged.

Variables (exec : engine) (self : SentimentAnalyzer).
Variables (h : heap) (m : nat) (mprops : list (string * value)).
Variables (before after tags : list (string * JSON)).
Variables (p1 p2 bprops : list (string * value)) (e1 e2 eb : heap).
Hypothesis Hok :
  json_ok (JObject (before ++ ("behavior_tags", JObject tags) :: after)) = true.
Hypothesis Hm : h !! m = Some (OObj mprops).
Hypothesis Hser :
  SerializeJSONProperty (S (List.length h)) h [] (VObject m)
  = Returns (Some (JObject (before ++ ("behavior_tags", JObject tags) :: after))).
Hypothesis Hbefore : member before "behavior_tags" = None.
Hypothesis Hrev1 : revive_members (List.length h) before = (p1, e1).
Hypothesis Hrevt : revive_members (List.length h + List.length e1) tags = (bprops, eb).
Hypothesis Hrev2 :
  revive_members (S (List.length h + List.length e1 + List.length eb)) after = (p2, e2).

Lemma tagged_ok :
  forallb (fun e => json_ok (snd e)) before = true
  /\ json_ok (JObject tags) = true
  /\ forallb (fun e => json_ok (snd e)) after = true.
Proof.
  pose proof (members_ok _ Hok) as H.
  rewrite forallb_app in H. simpl in H.
  apply andb_prop in H. destruct H as [H1 H].
  apply andb_prop in H. destruct H as [Ht H2]. auto.
Qed.

Lemma tags_distinct : define_all bprops = bprops.
Proof.
  apply define_all_distinct.
  pose proof (revive_members_keys tags (List.length h + List.length e1)) as Hk.
  rewrite Hrevt in Hk. simpl in Hk. rewrite Hk.
  destruct tagged_ok as (_ & H & _). simpl in H. now apply andb_prop in H.
Qed.

Lemma tagged_revive :
  revive_members (List.length h) (before ++ ("behavior_tags", JObject tags) :: after)
  = (p1 ++ ("behavior_tags", VObject (List.length h + List.length e1 + List.length eb)) :: p2,
     e1 ++ (eb ++ [OObj bprops]) ++ e2).
Proof.
  rewrite revive_members_app, Hrev1. cbn [revive_members].
  rewrite revive_object, Hrevt, tags_distinct.
  rewrite length_app. simpl List.length.
  replace (List.length h + List.length e1 + (List.length eb + 1))
    with (S (List.length h + List.length e1 + List.length eb)) by lia.
  now rewrite Hrev2.
Qed.

Lemma tagged_property :
  property (p1 ++ ("behavior_tags", VObject (List.length h + List.length e1 + List.length eb))
               :: p2) "behavior_tags"
  = VObject (List.length h + List.length e1 + List.length eb).
Proof.
  unfold property. rewrite lookup_prop_app.
  - simpl. reflexivity.
  - pose proof (revive_members_absent before _ Hbefore (List.length h)) as H.
    now rewrite Hrev1 in H.
Qed.

Lemma tagged_cell :
  (h ++ (e1 ++ (eb ++ [OObj bprops]) ++ e2) ++
     [OObj (p1 ++ ("behavior_tags",
                   VObject (List.length h + List.length e1 + List.length eb)) :: p2)])
    !! (List.length h + List.length e1 + List.length eb)
  = Some (OObj bprops).
Proof.
  eapply (lookup_at _ (h ++ e1 ++ eb)).
  - now rewrite <- !app_assoc.
  - rewrite !length_app. lia.
Qed.

Lemma tagged_sentiment :
  truthy (property bprops "sentiment") = truthy_member tags "sentiment".
Proof.
  pose proof (revive_members_truthy tags "sentiment" (List.length h + List.length e1)) as H.
  now rewrite Hrevt in H.
Qed.

Lemma tagged_copies :
  analyze exec self (VObject m) h
  = analyze_copy exec self (VObject m)
      (VObject (List.length h + List.length (e1 ++ (eb ++ [OObj bprops]) ++ e2)))
      (h ++ (e1 ++ (eb ++ [OObj bprops]) ++ e2) ++
         [OObj (p1 ++ ("behavior_tags",
                       VObject (List.length h + List.length e1 + List.length eb)) :: p2)]).
Proof. eapply analyze_copies; [exact Hok | exact Hser | exact tagged_revive]. Qed.

(** The tags of the message hold a sentiment that counts. *)
Lemma analyze_with_sentiment :
  truthy_member tags "sentiment" = true ->
  exists result ext,
    analyze exec self (VObject m) h = (Returns result, h ++ ext)
    /\ SerializeJSONProperty (S (List.length (h ++ ext))) (h ++ ext) [] result
       = Returns (Some (JObject (before ++ ("behavior_tags", JObject tags) :: after))).
Proof.
  intros Ht. eexists _, _. split.
  - rewrite tagged_copies.
    eapply copy_with_sentiment.
    + apply copy_root.
    + apply tagged_property.
    + apply tagged_cell.
    + now rewrite tagged_sentiment.
  - apply view_copy.
    + exact Hok.
    + rewrite revive_object, tagged_revive.
      erewrite props_distinct; [reflexivity | exact Hok | exact tagged_revive].
Qed.

(** The tags of the message hold no sentiment that counts: the tags of
    the copy receive the tag. *)
Lemma analyze_with_tags :
  truthy_member tags "sentiment" = false ->
  match analyzeSentiment exec self (property mprops "content") with
  | Returns a =>
      exists result ext,
        analyze exec self (VObject m) h = (Returns result, h ++ ext)
        /\ SerializeJSONProperty (S (List.length (h ++ ext))) (h ++ ext) [] result
           = Returns (Some (JObject (before ++
               ("behavior_tags", JObject (with_member tags "sentiment" (sentiment_tag a)))
               :: after)))
  | Throws e => exists ext, analyze exec self (VObject m) h = (Throws e, h ++ ext)
  | Unmodelled => exists ext, analyze exec self (VObject m) h = (Unmodelled, h ++ ext)
  end.
Proof.
  intros Ht. rewrite tagged_copies.
  erewrite copy_with_tags; cycle 1.
  { apply copy_root. }
  { apply lookup_app_l_Some. exact Hm. }
  { apply tagged_property. }
  { apply tagged_cell. }
  { now rewrite tagged_sentiment. }
  destruct (analyzeSentiment exec self (property mprops "content")) as [a| |];
    [|now eexists|now eexists].
  set (b := List.length h + List.length e1 + List.length eb).
  set (r := List.length h + List.length (e1 ++ (eb ++ [OObj bprops]) ++ e2)).
  set (props := p1 ++ ("behavior_tags", VObject b) :: p2).
  assert (Hr : r = S b + List.length e2).
  { unfold r, b. rewrite !length_app. simpl. lia. }
  assert (Hlen : List.length (h ++ (e1 ++ (eb ++ [OObj bprops]) ++ e2) ++ [OObj props]) = S r).
  { unfold r. rewrite !length_app. simpl. lia. }
  rewrite Hlen.
  assert (E : <[b := OObj (define_prop bprops "sentiment" (VObject (S r)))]>
                ((h ++ (e1 ++ (eb ++ [OObj bprops]) ++ e2) ++ [OObj props])
                   ++ [sentiment_object a])
              = h ++ (e1 ++ eb ++ [OObj (define_prop bprops "sentiment" (VObject (S r)))]
                        ++ e2 ++ [OObj props; sentiment_object a])).
  { transitivity (<[List.length (h ++ e1 ++ eb) + 0 :=
                     OObj (define_prop bprops "sentiment" (VObject (S r)))]>
                    ((h ++ e1 ++ eb) ++ [OObj bprops] ++ e2 ++ [OObj props; sentiment_object a])).
    - f_equal; [unfold b; rewrite !length_app; lia | now rewrite <- !app_assoc].
    - rewrite insert_app_r. simpl. now rewrite <- !app_assoc. }
  rewrite E. eexists _, _. split; [reflexivity|].
  destruct tagged_ok as (Hok1 & Hokt & Hok2). simpl in Hokt.
  apply andb_prop in Hokt. destruct Hokt as [_ Hokt].
  eapply (view_with_tags h a before after tags p1 p2 bprops e1 e2 eb _ b r
            Hok1 Hok2 Hokt Hrev1 Hrevt eq_refl Hrev2 Hr).
  reflexivity.
Qed.

End Tagged.

(** * [analyze] on a message whose [behavior_tags] cannot receive the tag *)

Lemma revive_untaggable (tags : JSON) (lo : nat) :
  taggable (Some tags) = false ->
  truthy (fst (revive lo tags)) = true
  /\ (match fst (revive lo tags) with VObject _ => False | _ => True end
      \/ exists elems ext,
           revive lo tags = (VObject (lo + List.length ext), ext ++ [OArr elems])).
Proof.
  destruct tags as [|b|x|s|elems|members]; simpl; try discriminate.
  - intros ->%negb_false_iff. auto.
  - intros ->%negb_false_iff. auto.
  - intros ->%negb_false_iff. auto.
  - intros _. split; [now destruct (_ lo elems)|]. right.
    change (exists elems0 ext, revive lo (JArray elems)
              = (VObject (lo + List.length ext), ext ++ [OArr elems0])).
    rewrite revive_array. destruct (revive_elements lo elems) as [vs ext]. now exists vs, ext.
Qed.

Section Untaggable.

Variables (exec : engine) (self : SentimentAnalyzer).
Variables (h : heap) (m : nat) (mprops : list (string * value)).
Variables (before after : list (string * JSON)) (tags : JSON).
Variables (p1 p2 : list (string * value)) (e1 e2 xt : heap) (vt : value).
Hypothesis Hok : json_ok (JObject (before ++ ("behavior_tags", tags) :: after)) = true.
Hypothesis Hm : h !! m = Some (OObj mprops).
Hypothesis Hser :
  SerializeJSONProperty (S (List.length h)) h [] (VObject m)
  = Returns (Some (JObject (before ++ ("behavior_tags", tags) :: after))).
Hypothesis Hbefore : member before "behavior_tags" = None.
Hypothesis Htags : taggable (Some tags) = false.
Hypothesis Hrev1 : revive_members (List.length h) before = (p1, e1).
Hypothesis Hrevt : revive (List.length h + List.length e1) tags = (vt, xt).
Hypothesis Hrev2 :
  revive_members (List.length h + List.length e1 + List.length xt) after = (p2, e2).

Lemma untaggable_revive :
  revive_members (List.length h) (before ++ ("behavior_tags", tags) :: after)
  = (p1 ++ ("behavior_tags", vt) :: p2, e1 ++ xt ++ e2).
Proof.
  rewrite revive_members_app, Hrev1. cbn [revive_members]. now rewrite Hrevt, Hrev2.
Qed.

Lemma untaggable_property :
  property (p1 ++ ("behavior_tags", vt) :: p2) "behavior_tags" = vt.
Proof.
  unfold property. rewrite lookup_prop_app.
  - simpl. reflexivity.
  - pose proof (revive_members_absent before _ Hbefore (List.length h)) as H.
    now rewrite Hrev1 in H.
Qed.

Lemma analyze_untaggable :
  match analyzeSentiment exec self (property mprops "content") with
  | Returns a =>
      exists ext, analyze exec self (VObject m) h = (Throws TypeError, h ++ ext)
                  \/ analyze exec self (VObject m) h = (Unmodelled, h ++ ext)
  | Throws e => exists ext, analyze exec self (VObject m) h = (Throws e, h ++ ext)
  | Unmodelled => exists ext, analyze exec self (VObject m) h = (Unmodelled, h ++ ext)
  end.
Proof.
  erewrite analyze_copies; [|exact Hok|exact Hser|exact untaggable_revive].
  destruct (revive_untaggable tags (List.length h + List.length e1) Htags) as [Ht Hshape].
  rewrite Hrevt in Ht, Hshape. simpl in Ht, Hshape.
  destruct Hshape as [Hprim|(elems & ext & [= Ev Ex])].
  - erewrite copy_with_primitive; cycle 1.
    { apply copy_root. }
    { apply lookup_app_l_Some. exact Hm. }
    { apply untaggable_property. }
    { exact Ht. }
    { exact Hprim. }
    destruct (analyzeSentiment exec self (property mprops "content")) as [a| |].
    + eexists. left. now rewrite <- !app_assoc.
    + now eexists.
    + now eexists.
  - erewrite copy_with_array; cycle 1.
    { apply copy_root. }
    { apply lookup_app_l_Some. exact Hm. }
    { rewrite untaggable_property. exact Ev. }
    { eapply (lookup_at _ (h ++ e1 ++ ext)).
      - rewrite Ex. now rewrite <- !app_assoc.
      - rewrite !length_app. lia. }
    destruct (analyzeSentiment exec self (property mprops "content")) as [a| |].
    + eexists. right. now rewrite <- !app_assoc.
    + now eexists.
    + now eexists.
Qed.

End Untaggable.

(** * What [analyze] does with a message *)

Lemma falsy_members (tags : JSON) : json_truthy tags = false -> members_of (Some tags) = [].
Proof. destruct tags; simpl; congruence. Qed.

Lemma falsy_taggable (tags : JSON) : json_truthy tags = false -> taggable (Some tags) = true.
Proof. destruct tags; simpl; intros H; rewrite ?H; try reflexivity; discriminate. Qed.

Lemma truthy_untaggable (tags : JSON) :
  json_truthy tags = true ->
  match tags with JObject _ => True | _ => taggable (Some tags) = false end.
Proof.
  destruct tags; simpl; intros H; rewrite ?H; try reflexivity; try exact I; discriminate.
Qed.

(** The outcome of [analyze] on a message that serializes to a JSON
    object, the heap it leaves and the JSON form of its result. *)
Lemma analyze_object (exec : engine) (self : SentimentAnalyzer) (h : heap) (m : nat)
    (mprops : list (string * value)) (members : list (string * JSON)) :
  json_ok (JObject members) = true ->
  h !! m = Some (OObj mprops) ->
  SerializeJSONProperty (S (List.length h)) h [] (VObject m)
  = Returns (Some (JObject members)) ->
  if truthy_member (members_of (member members "behavior_tags")) "sentiment"
  then exists result ext,
         analyze exec self (VObject m) h = (Returns result, h ++ ext)
         /\ SerializeJSONProperty (S (List.length (h ++ ext))) (h ++ ext) [] result
            = Returns (Some (JObject members))
  else match analyzeSentiment exec self (property mprops "content") with
       | Returns a =>
           if taggable (member members "behavior_tags")
           then exists result ext,
                  analyze exec self (VObject m) h = (Returns result, h ++ ext)
                  /\ SerializeJSONProperty (S (List.length (h ++ ext))) (h ++ ext) [] result
                     = Returns (Some (JObject
                         (with_member members "behavior_tags"
                            (JObject (with_member
                                        (members_of (member members "behavior_tags"))
                                        "sentiment" (sentiment_tag a))))))
           else exists ext,
                  analyze exec self (VObject m) h = (Throws TypeError, h ++ ext)
                  \/ analyze exec self (VObject m) h = (Unmodelled, h ++ ext)
       | Throws e => exists ext, analyze exec self (VObject m) h = (Throws e, h ++ ext)
       | Unmodelled => exists ext, analyze exec self (VObject m) h = (Unmodelled, h ++ ext)
       end.
Proof.
  intros Hok Hm Hser.
  assert (Hnone :
    truthy_member members "behavior_tags" = false ->
    members_of (member members "behavior_tags") = [] ->
    taggable (member members "behavior_tags") = true ->
    if truthy_member (members_of (member members "behavior_tags")) "sentiment"
    then exists result ext,
           analyze exec self (VObject m) h = (Returns result, h ++ ext)
           /\ SerializeJSONProperty (S (List.length (h ++ ext))) (h ++ ext) [] result
              = Returns (Some (JObject members))
    else match analyzeSentiment exec self (property mprops "content") with
         | Returns a =>
             if taggable (member members "behavior_tags")
             then exists result ext,
                    analyze exec self (VObject m) h = (Returns result, h ++ ext)
                    /\ SerializeJSONProperty (S (List.length (h ++ ext))) (h ++ ext) [] result
                       = Returns (Some (JObject
                           (with_member members "behavior_tags"
                              (JObject (with_member
                                          (members_of (member members "behavior_tags"))
                                          "sentiment" (sentiment_tag a))))))
             else exists ext,
                    analyze exec self (VObject m) h = (Throws TypeError, h ++ ext)
                    \/ analyze exec self (VObject m) h = (Unmodelled, h ++ ext)
         | Throws e => exists ext, analyze exec self (VObject m) h = (Throws e, h ++ ext)
         | Unmodelled => exists ext, analyze exec self (VObject m) h = (Unmodelled, h ++ ext)
         end).
  { intros Ht -> ->. cbn [truthy_member member with_member].
    destruct (revive_members (List.length h) members) as [props em] eqn:Hrev.
    rewrite (analyze_without_tags exec self h m mprops members props em Hok Hm Hser Hrev Ht).
    cbv zeta.
    destruct (analyzeSentiment exec self (property mprops "content")) as [a| |];
      [|now eexists|now eexists].
    eexists _, _. split; [reflexivity|].
    eapply view_without_tags; [exact (members_ok _ Hok)|exact Hrev|reflexivity]. }
  destruct (member members "behavior_tags") as [tags|] eqn:Hmem.
  2: { apply Hnone; try reflexivity. unfold truthy_member. now rewrite Hmem. }
  destruct (json_truthy tags) eqn:Htruthy.
  2: { apply Hnone; [unfold truthy_member; now rewrite Hmem
                    | now apply falsy_members | now apply falsy_taggable]. }
  clear Hnone.
  destruct (member_split _ _ _ Hmem) as (before & after & -> & Hbefore).
  destruct (revive_members (List.length h) before) as [p1 e1] eqn:Hrev1.
  destruct (taggable (Some tags)) eqn:Htag.
  2: { assert (members_of (Some tags) = []) as ->
         by (destruct tags; try reflexivity; discriminate).
       cbn [truthy_member member].
       destruct (revive (List.length h + List.length e1) tags) as [vt xt] eqn:Hrevt.
       destruct (revive_members (List.length h + List.length e1 + List.length xt) after)
         as [p2 e2] eqn:Hrev2.
       exact (analyze_untaggable exec self h m mprops before after tags p1 p2 e1 e2 xt vt
                Hok Hm Hser Hbefore Htag Hrev1 Hrevt Hrev2). }
  pose proof (truthy_untaggable tags Htruthy) as Hshape.
  destruct tags as [|b|x|s|elems|tags]; try congruence. clear Hshape Htag.
  cbn [members_of].
  destruct (revive_members (List.length h + List.length e1) tags) as [bprops eb] eqn:Hrevt.
  destruct (revive_members (S (List.length h + List.length e1 + List.length eb)) after)
    as [p2 e2] eqn:Hrev2.
  destruct (truthy_member tags "sentiment") eqn:Hsent.
  - eapply analyze_with_sentiment; eassumption.
  - pose proof (analyze_with_tags exec self h m mprops before after tags p1 p2 bprops e1 e2 eb
                  Hok Hm Hser Hbefore Hrev1 Hrevt Hrev2 Hsent) as Hres.
    destruct (analyzeSentiment exec self (property mprops "content")) as [a| |]; try exact Hres.
    rewrite (with_member_split before after "behavior_tags" (JObject tags)) by exact Hbefore.
    exact Hres.
Qed.

(** A message that does not serialize to a JSON object is not analyzed:
    [analyze] throws or leaves the model. *)
Lemma analyze_other (exec : engine) (self : SentimentAnalyzer) (h : heap) (message : value) :
  (forall members,
      SerializeJSONProperty (S (List.length h)) h [] message
      <> Returns (Some (JObject members))) ->
  exists o ext,
    analyze exec self message h = (o, h ++ ext) /\ forall result, o <> Returns result.
Proof.
  intros Hno. unfold analyze. unfold bindM at 1. unfold JSON_stringify.
  destruct (SerializeJSONProperty (S (List.length h)) h [] message) as [[j|]| |].
  - destruct j as [|b|x|s|elems|members].
    + exists (Throws TypeError), []. split; [reflexivity | discriminate].
    + exists (Throws TypeError), [OObj []]. split; [|discriminate].
      unfold bindM at 1. simpl JSON_parse. rewrite app_nil_r. reflexivity.
    + exists (Throws TypeError), [OObj []]. split; [|discriminate].
      unfold bindM at 1. simpl JSON_parse. rewrite app_nil_r. reflexivity.
    + exists (Throws TypeError), [OObj []]. split; [|discriminate].
      unfold bindM at 1. simpl JSON_parse. rewrite app_nil_r. reflexivity.
    + unfold bindM at 1. unfold JSON_parse. rewrite revive_array.
      destruct (revive_elements (List.length h) elems) as [vs ext].
      exists Unmodelled, ((ext ++ [OArr vs]) ++ [OObj []]). split; [|discriminate].
      assert (Hcell : (h ++ ext ++ [OArr vs]) !! (List.length h + List.length ext)
                      = Some (OArr vs)).
      { eapply (lookup_at _ (h ++ ext)); [now rewrite <- app_assoc | now rewrite length_app]. }
      unfold analyze_copy.
      rewrite (bindM_returns _ _ _ _ _ (Get_array _ _ _ "behavior_tags" Hcell)).
      cbn [truthy negb]. unfold alloc. unfold bindM at 2. unfold bindM at 1.
      unfold Set_. rewrite (lookup_app_l_Some _ _ _ _ Hcell). now rewrite <- !app_assoc.
    + now destruct (Hno members).
  - exists (Throws SyntaxError), []. split; [now rewrite app_nil_r | discriminate].
  - exists (Throws e), []. split; [now rewrite app_nil_r | discriminate].
  - exists Unmodelled, []. split; [now rewrite app_nil_r | discriminate].
Qed.




(** Every run of [analyze]: the heap grows at its end, and a result is
    the copy of the message, either as it is (its sentiment counts) or
    with the tag of some analysis at [behavior_tags.sentiment]. *)
Lemma analyze_result (exec : engine) (self : SentimentAnalyzer) (h h' : heap) (message : value)
    (o : outcome value) :
  heap_ok h = true ->
  analyze exec self message h = (o, h') ->
  (exists ext, h' = h ++ ext)
  /\ forall result,
       o = Returns result ->
       exists members,
         SerializeJSONProperty (S (List.length h)) h [] message
         = Returns (Some (JObject members))
         /\ json_ok (JObject members) = true
         /\ ((truthy_member (members_of (member members "behavior_tags")) "sentiment" = true
              /\ SerializeJSONProperty (S (List.length h')) h' [] result
                 = Returns (Some (JObject members)))
             \/ (truthy_member (members_of (member members "behavior_tags")) "sentiment"
                 = false
                 /\ exists a,
                      SerializeJSONProperty (S (List.length h')) h' [] result
                      = Returns (Some (JObject
                          (with_member members "behavior_tags"
                             (JObject (with_member
                                         (members_of (member members "behavior_tags"))
                                         "sentiment" (sentiment_tag a)))))))).
Proof.
  intros Hok Hrun.
  destruct (SerializeJSONProperty (S (List.length h)) h [] message) as [[[| | | | |members]|]| |]
    eqn:Hser.
  6: { destruct (serialize_to_object _ _ _ _ _ Hser) as (m & mprops & -> & Hm).
       pose proof (serialize_ok h Hok _ _ _ _ Hser) as Hjson.
       pose proof (analyze_object exec self h m mprops members Hjson Hm Hser) as Hcase.
       destruct (truthy_member (members_of (member members "behavior_tags")) "sentiment")
         eqn:Hsent.
       - destruct Hcase as (result & ext & Hres & Hview).
         rewrite Hres in Hrun. injection Hrun as <- <-. split; [now exists ext|].
         intros ? [= <-]. exists members. auto.
       - destruct (analyzeSentiment exec self (property mprops "content")) as [a| |].
         + destruct (taggable (member members "behavior_tags")).
           * destruct Hcase as (result & ext & Hres & Hview).
             rewrite Hres in Hrun. injection Hrun as <- <-. split; [now exists ext|].
             intros ? [= <-]. exists members. split; [reflexivity|]. split; [exact Hjson|].
             right. split; [exact Hsent|]. now exists a.
           * destruct Hcase as (ext & [Hres|Hres]); rewrite Hres in Hrun;
               injection Hrun as <- <-; (split; [now exists ext | discriminate]).
         + destruct Hcase as (ext & Hres). rewrite Hres in Hrun.
           injection Hrun as <- <-. split; [now exists ext | discriminate].
         + destruct Hcase as (ext & Hres). rewrite Hres in Hrun.
           injection Hrun as <- <-. split; [now exists ext | discriminate]. }
  all: destruct (analyze_other exec self h message) as (o' & ext & Hres & Hno);
    [intros members; rewrite Hser; discriminate|];
    rewrite Hres in Hrun; injection Hrun as <- <-;
    (split; [now exists ext | intros result ->; now destruct (Hno result)]).
Qed.

(** * Properties of [analyze] *)

Lemma non_text_neutral (exec : engine) (self : SentimentAnalyzer) (c : value) :
  (forall s, c <> VString s) ->
  analyzeSentiment exec self c = Returns {| type := neutral; confidence := 1.0 |}.
Proof. intros Hc. destruct c; try reflexivity. now destruct (Hc s). Qed.


(** C6, amended: a message object that JSON can copy, whose content is
    absent, [null] or anything but a string, and whose [behavior_tags] are
    absent, do not count as true or are an object without a sentiment that
    counts as true, is returned as a copy whose [behavior_tags.sentiment] is
    [{detected: neutral, confidence: 1.0}]. *)
Theorem non_text_content (exec : engine) (self : SentimentAnalyzer) (h : heap)
    (message c : value) (members : list (string * JSON)) :
  heap_ok h = true ->
  json_of h message = Returns (Some (JObject members)) ->
  Get message "content" h = (Returns c, h) ->
  (forall s, c <> VString s) ->
  taggable (field (Some (JObject members)) "behavior_tags") = true ->
  truthy_member (members_of (field (Some (JObject members)) "behavior_tags")) "sentiment"
  = false ->
  exists result h' j,
    analyze exec self message h = (Returns result, h')
    /\ json_of h' result = Returns (Some j)
    /\ field (field (Some j) "behavior_tags") "sentiment"
       = Some (sentiment_tag {| type := neutral; confidence := 1.0 |}).
Proof.
  unfold json_of, JSON_stringify, field. cbn [fst members_of].
  intros Hok Hser Hget Hc Htag Hsent.
  destruct (serialize_to_object _ _ _ _ _ Hser) as (m & mprops & -> & Hm).
  rewrite (Get_object _ _ _ _ Hm) in Hget. injection Hget as <-.
  pose proof (analyze_object exec self h m mprops members
                (serialize_ok h Hok _ _ _ _ Hser) Hm Hser) as Hcase.
  rewrite Hsent, (non_text_neutral exec self _ Hc), Htag in Hcase.
  destruct Hcase as (result & ext & Hres & Hview).
  exists result, (h ++ ext). eexists. split; [exact Hres|]. split; [exact Hview|].
  cbn [members_of]. rewrite member_with_member_eq. cbn [members_of].
  apply member_with_member_eq.
Qed.

Lemma non_text_content_witness :
  exists result h' j,
    analyze no_engine default_analyzer (VObject 1) null_message = (Returns result, h')
    /\ json_of h' result = Returns (Some j)
    /\ field (field (Some j) "behavior_tags") "sentiment"
       = Some (sentiment_tag {| type := neutral; confidence := 1.0 |}).
Proof.
  apply (non_text_content no_engine default_analyzer null_message (VObject 1) VNull
           [("content", JNull); ("behavior_tags", JObject [])]).
  - reflexivity.
  - reflexivity.
  - reflexivity.
  - intros s H. discriminate H.
  - reflexivity.
  - reflexivity.
Defined.

(** C6 as stated fails: the content of this message is [null], and the
    sentiment of the result is the one the caller gave. *)
Lemma non_text_content_tagged :
  exists result h',
    analyze no_engine default_analyzer (VObject 2) custom_message = (Returns result, h')
    /\ Get (VObject 2) "content" custom_message = (Returns VNull, custom_message)
    /\ forall j,
         json_of h' result = Returns (Some j) ->
         field (field (Some j) "behavior_tags") "sentiment"
         <> Some (sentiment_tag {| type := neutral; confidence := 1.0 |}).
Proof.
  eexists _, _. split; [vm_compute; reflexivity|]. split; [reflexivity|].
  intros j Hj. vm_compute in Hj. injection Hj as <-. vm_compute. discriminate.
Qed.




(** C8, amended: [analyze] changes no object that exists when it is
    called: the heap it leaves is the heap it found followed by new
    objects. When it returns, the JSON text of the result has the fields of
    the JSON text of the message, [behavior_tags] apart, and its
    [behavior_tags] have the entries of those of the message, [sentiment]
    apart. *)
Theorem analyze_frame (exec : engine) (self : SentimentAnalyzer) (h h' : heap)
    (message : value) (o : outcome value) :
  heap_ok h = true ->
  analyze exec self message h = (o, h') ->
  (exists ext, h' = h ++ ext)
  /\ forall result,
       o = Returns result ->
       exists j j',
         json_of h message = Returns (Some j)
         /\ json_of h' result = Returns (Some j')
         /\ (forall k, k <> "behavior_tags" -> field (Some j') k = field (Some j) k)
         /\ (forall k, k <> "sentiment" ->
               field (field (Some j') "behavior_tags") k
               = field (field (Some j) "behavior_tags") k).
Proof.
  unfold json_of, JSON_stringify. cbn [fst]. intros Hok Hrun.
  destruct (analyze_result exec self h h' message o Hok Hrun) as [Hext Hres].
  split; [exact Hext|]. intros result Ho.
  destruct (Hres result Ho) as (members & Hser & _ & [[_ Hview]|[_ (a & Hview)]]).
  - exists (JObject members), (JObject members). auto.
  - eexists _, _. split; [exact Hser|]. split; [exact Hview|].
    unfold field. cbn [members_of]. split.
    + intros k Hk. now apply member_with_member_ne.
    + intros k Hk. rewrite member_with_member_eq. cbn [members_of].
      now apply member_with_member_ne.
Qed.

Lemma analyze_frame_witness :
  (exists ext, snd (analyze no_engine default_analyzer (VObject 1) numeric_message)
               = numeric_message ++ ext)
  /\ forall result,
       fst (analyze no_engine default_analyzer (VObject 1) numeric_message) = Returns result ->
       exists j j',
         json_of numeric_message (VObject 1) = Returns (Some j)
         /\ json_of (snd (analyze no_engine default_analyzer (VObject 1) numeric_message)) result
            = Returns (Some j')
         /\ (forall k, k <> "behavior_tags" -> field (Some j') k = field (Some j) k)
         /\ (forall k, k <> "sentiment" ->
               field (field (Some j') "behavior_tags") k
               = field (field (Some j) "behavior_tags") k).
Proof.
  apply (analyze_frame no_engine default_analyzer numeric_message).
  - reflexivity.
  - apply surjective_pairing.
Defined.

(** C8 as stated fails: the copy is the one that JSON makes. This
    message has the field [list], an array whose one element is
    [undefined], and the field [maybe] of value [undefined]; in the result
    the array of [list] holds [null], and there is no field [maybe]. *)
Lemma undefined_not_copied :
  exists result h' props copy,
    analyze no_engine default_analyzer (VObject 2) sparse_message
    = (Returns (VObject result), h')
    /\ Get (VObject 2) "list" sparse_message = (Returns (VObject 1), sparse_message)
    /\ sparse_message !! 1 = Some (OArr [VUndefined])
    /\ Get (VObject result) "list" h' = (Returns (VObject copy), h')
    /\ h' !! copy = Some (OArr [VNull])
    /\ (exists mprops, sparse_message !! 2 = Some (OObj mprops)
                       /\ lookup_prop mprops "maybe" = Some VUndefined)
    /\ h' !! result = Some (OObj props)
    /\ lookup_prop props "maybe" = None.
Proof.
  eexists _, _, _, _. split; [vm_compute; reflexivity|].
  split; [reflexivity|]. split; [reflexivity|]. split; [vm_compute; reflexivity|].
  split; [reflexivity|]. split; [eexists; split; reflexivity|].
  split; reflexivity.
Qed.

(** * Errors of [analyze] *)

(** [analyze] throws on a message that is [null] (reading
    [behavior_tags] of the copy is a TypeError) and on one that is
    [undefined] (it has no JSON text to parse), and leaves the heap as it
    is. *)
Theorem analyze_no_message (exec : engine) (self : SentimentAnalyzer) (h : heap) :
  analyze exec self VNull h = (Throws TypeError, h)
  /\ analyze exec self VUndefined h = (Throws SyntaxError, h).
Proof.
  split.
  - unfold analyze, bindM, JSON_stringify, JSON_parse, analyze_copy, Get. cbn.
    now rewrite app_nil_r.
  - unfold analyze, bindM, JSON_stringify, JSON_parse. cbn. reflexivity.
Qed.


(** What [analyzeSentiment] throws on the content, [analyze] throws on a
    message without a sentiment that counts as true; the heap it leaves
    is the heap it found followed by the copy. *)
Theorem analyze_propagates_error (exec : engine) (self : SentimentAnalyzer) (h : heap)
    (message c : value) (members : list (string * JSON)) (e : js_error) :
  heap_ok h = true ->
  json_of h message = Returns (Some (JObject members)) ->
  Get message "content" h = (Returns c, h) ->
  truthy_member (members_of (field (Some (JObject members)) "behavior_tags")) "sentiment"
  = false ->
  analyzeSentiment exec self c = Throws e ->
  exists ext, analyze exec self message h = (Throws e, h ++ ext).
Proof.
  unfold json_of, JSON_stringify, field. cbn [fst members_of].
  intros Hok Hser Hget Hsent Hthrow.
  destruct (serialize_to_object _ _ _ _ _ Hser) as (m & mprops & -> & Hm).
  rewrite (Get_object _ _ _ _ Hm) in Hget. injection Hget as <-.
  pose proof (analyze_object exec self h m mprops members
                (serialize_ok h Hok _ _ _ _ Hser) Hm Hser) as Hcase.
  now rewrite Hsent, Hthrow in Hcase.
Qed.

Lemma analyze_propagates_error_witness :
  exists ext,
    analyze no_engine emoticon_analyzer (VObject 1) thanks_message
    = (Throws SyntaxError, thanks_message ++ ext).
Proof.
  apply (analyze_propagates_error no_engine emoticon_analyzer thanks_message (VObject 1)
           (VString "Thanks :)")
           [("content", JString "Thanks :)"); ("behavior_tags", JObject [])]).
  - reflexivity.
  - reflexivity.
  - reflexivity.
  - reflexivity.
  - vm_compute. reflexivity.
Defined.

End Messages.
